(** * ublox_gps: the raw data stream relay (src/ublox_gps/src/raw_data_pa.cpp)

    A shallow embedding of class [ublox_node::RawDataStreamPa]: the node that
    publishes the receiver's raw bytes as [std_msgs/UInt8MultiArray] messages
    and/or appends them to a time-stamped log file, or (as a subscriber)
    receives such messages and appends their bytes to the log file.

    Conventions.
    - Payload strings ([std::string] holding receiver bytes) and
      [std::vector<uint8_t>] are [list byte]; a [char] and a [uint8_t] are the
      same 8-bit pattern, so the element conversions done by [std::copy] and by
      the [reinterpret_cast] in [ubloxCallback] are the identity on [byte].
    - Path strings and parameter names are [string].
    - The members of the class, the node's parameter store and the effects the
      node has on its surroundings (messages handed to the publisher, lines
      handed to the logger, files written through [file_handle_]) are fields
      of one record that every member function takes and returns.
    - The operating system's answers ([::stat], whether a file can be created,
      the local time) are an explicit argument of [initialize].
    - The storage device is ideal: a write to a stream that is open and in a
      good state always succeeds, and a file's contents are what has been
      inserted into its stream (the stream's buffer is flushed at the latest
      when the node is destroyed). [std::ofstream] is used with its default
      exception mask, so [open] and [operator<<] never throw and the two
      [catch] blocks of the source are unreachable.
    - Parameters are statically typed, as in current rclcpp: an override of
      another type makes [declare_parameter] throw.
    - [int] values are [Z]; the two sums of [initialize] ([tm_year + 1900],
      [tm_mon + 1]) are far from the limits of [int] for every time
      [localtime] can return. *)

From Stdlib Require Import ZArith List String Ascii Bool Lia DecimalString.
From Stdlib.Strings Require Import Byte.
From stdpp Require Import base option gmap strings list.

(** ** The C++ standard library pieces the node uses *)

Module Std.

(** [std::string::empty()] on a path string. *)
Definition str_empty (s : string) : bool :=
  match s with
  | EmptyString => true
  | String _ _ => false
  end.

(** [std::string::back()]: the last character; undefined on the empty
    string ([None]). *)
Fixpoint back (s : string) : option ascii :=
  match s with
  | EmptyString => None
  | String c EmptyString => Some c
  | String _ rest => back rest
  end.

(** [std::string(n, c)] and the tail of [std::vector::resize]. *)
Definition fill_n (n : nat) (c : byte) : list byte := replicate n c.

(** [std::vector<uint8_t>::resize(n)]: keep the first [n] elements, pad
    with value-initialised (zero) elements. *)
Definition resize (n : nat) (v : list byte) : list byte :=
  take n v ++ fill_n (n - length v) x00.

(** [std::copy(src.begin(), src.end(), dst.begin())]: overwrite the
    destination slot by slot, in order. Writing past the end of the
    destination is undefined behaviour; the model stops there, and
    [copy_fits] below is the side condition under which it never happens. *)
Fixpoint copy (src dst : list byte) : list byte :=
  match src, dst with
  | [], _ => dst
  | _ :: _, [] => []
  | c :: src', _ :: dst' => c :: copy src' dst'
  end.

Definition copy_fits (src dst : list byte) : Prop := length src ≤ length dst.

(** [std::string(ptr, size)]: [data] is the memory readable from [ptr].
    Reading more than the buffer holds is undefined behaviour ([None]). *)
Definition string_of_buffer (data : list byte) (size : nat) : option (list byte) :=
  if (size <=? length data)%nat then Some (take size data) else None.

(** *** [std::stringstream], as far as [initialize] drives it *)

Record stringstream := {
  ss_str : string;     (* characters written so far *)
  ss_width : nat;      (* field width of the next formatted output *)
  ss_fill : ascii      (* fill character *)
}.

Definition ss_new : stringstream :=
  {| ss_str := ""; ss_width := 0; ss_fill := " "%char |}.

Definition width (n : nat) (ss : stringstream) : stringstream :=
  {| ss_str := ss_str ss; ss_width := n; ss_fill := ss_fill ss |}.

Definition fill (c : ascii) (ss : stringstream) : stringstream :=
  {| ss_str := ss_str ss; ss_width := ss_width ss; ss_fill := c |}.

Fixpoint fill_string (n : nat) (c : ascii) : string :=
  match n with
  | O => EmptyString
  | S n' => String c (fill_string n' c)
  end.

(** Formatted output of the text [t]: with the default (right) adjustment
    the field is padded on the left up to the width, and the width is reset
    to 0 afterwards. *)
Definition put (t : string) (ss : stringstream) : stringstream :=
  {| ss_str := ss_str ss +:+ fill_string (ss_width ss - String.length t) (ss_fill ss) +:+ t;
     ss_width := 0;
     ss_fill := ss_fill ss |}.

(** Decimal text of an [int]. *)
Definition to_string (z : Z) : string := NilZero.string_of_int (Z.to_int z).

Definition put_int (z : Z) : stringstream → stringstream := put (to_string z).
Definition put_char (c : ascii) : stringstream → stringstream := put (String c EmptyString).

(** *** [std::ofstream] over an ideal device

    [of_fail] stands for [failbit | badbit]. The file contents live in
    [disk], keyed by the path the stream was opened with. *)

Record ofstream := {
  of_is_open : bool;
  of_fail : bool;
  of_path : string
}.

Definition of_new : ofstream :=
  {| of_is_open := false; of_fail := false; of_path := "" |}.

(** [ofstream::open(name)]. On a stream that is already open the call fails
    and sets [failbit]; otherwise the file is created or truncated when the
    operating system allows it ([can_create]), and [failbit] is set when it
    does not. *)
Definition open (can_create : string → bool) (name : string)
    (f : ofstream) (disk : gmap string (list byte))
  : ofstream * gmap string (list byte) :=
  if of_is_open f then
    ({| of_is_open := true; of_fail := true; of_path := of_path f |}, disk)
  else if can_create name then
    ({| of_is_open := true; of_fail := false; of_path := name |}, <[name := []]> disk)
  else
    ({| of_is_open := false; of_fail := true; of_path := of_path f |}, disk).

(** [stream << str]. A stream in a failed state ignores the output; an open
    good stream appends the bytes; a closed stream cannot take any byte. *)
Definition insert (str : list byte) (f : ofstream) (disk : gmap string (list byte))
  : ofstream * gmap string (list byte) :=
  if of_fail f then (f, disk)
  else if of_is_open f then
    (f, <[of_path f := default [] (disk !! of_path f) ++ str]> disk)
  else
    match str with
    | [] => (f, disk)
    | _ :: _ => ({| of_is_open := false; of_fail := true; of_path := of_path f |}, disk)
    end.

(** *** [struct tm], [::stat] *)

Record tm := {
  tm_min : Z;
  tm_hour : Z;
  tm_mday : Z;
  tm_mon : Z;     (* months since January, 0..11 *)
  tm_year : Z     (* years since 1900 *)
}.

(** File type bits of [st_mode] (<sys/stat.h>, Linux and the BSDs). *)
Definition S_IFMT : Z := 61440.   (* 0170000 *)
Definition S_IFSOCK : Z := 49152. (* 0140000 *)
Definition S_IFREG : Z := 32768.  (* 0100000 *)
Definition S_IFBLK : Z := 24576.  (* 0060000 *)
Definition S_IFDIR : Z := 16384.  (* 0040000 *)
Definition S_IFCHR : Z := 8192.   (* 0020000 *)
Definition S_IFIFO : Z := 4096.   (* 0010000 *)

(** What POSIX's [S_ISDIR] tests. *)
Definition S_ISDIR (st_mode : Z) : bool := (Z.land st_mode S_IFMT =? S_IFDIR)%Z.

End Std.

(** ** std_msgs *)

Module Msg.

Record MultiArrayDimension := {
  label : string;
  size : Z;      (* uint32 *)
  stride : Z     (* uint32 *)
}.

Record MultiArrayLayout := {
  dim : list MultiArrayDimension;
  data_offset : Z  (* uint32 *)
}.

Record UInt8MultiArray := {
  layout : MultiArrayLayout;
  data : list byte
}.

(** Default-constructed messages. *)
Definition MultiArrayDimension_new : MultiArrayDimension :=
  {| label := ""; size := 0; stride := 0 |}.
Definition UInt8MultiArray_new : UInt8MultiArray :=
  {| layout := {| dim := []; data_offset := 0 |}; data := [] |}.

(** Conversion of a [size_t] to the [uint32] of a message field. *)
Definition to_uint32 (n : nat) : Z := (Z.of_nat n mod 2 ^ 32)%Z.

Definition set_data_offset (o : Z) (m : UInt8MultiArray) : UInt8MultiArray :=
  {| layout := {| dim := dim (layout m); data_offset := o |}; data := data m |}.
Definition set_dim (d : list MultiArrayDimension) (m : UInt8MultiArray) : UInt8MultiArray :=
  {| layout := {| dim := d; data_offset := data_offset (layout m) |}; data := data m |}.
Definition set_data (d : list byte) (m : UInt8MultiArray) : UInt8MultiArray :=
  {| layout := layout m; data := d |}.

Definition set_size (n : Z) (d : MultiArrayDimension) : MultiArrayDimension :=
  {| label := label d; size := n; stride := stride d |}.
Definition set_stride (n : Z) (d : MultiArrayDimension) : MultiArrayDimension :=
  {| label := label d; size := size d; stride := n |}.
Definition set_label (l : string) (d : MultiArrayDimension) : MultiArrayDimension :=
  {| label := l; size := size d; stride := stride d |}.

End Msg.

(** ** rclcpp: parameters and logging *)

Module Rclcpp.

(** The parameter kinds that matter here; an integer stands for every kind
    that is neither a string nor a bool. *)
Inductive ParameterValue :=
| PString (s : string)
| PBool (b : bool)
| PInteger (z : Z).

Definition same_type (a b : ParameterValue) : bool :=
  match a, b with
  | PString _, PString _ | PBool _, PBool _ | PInteger _, PInteger _ => true
  | _, _ => false
  end.

(** [declare_parameter(name, default)]: the value is the override given at
    launch when there is one, the default otherwise. An override of another
    type, or a second declaration of the name, throws ([None]). *)
Definition declare_parameter (overrides : gmap string ParameterValue)
    (name : string) (dflt : ParameterValue)
    (params : gmap string ParameterValue) : option (gmap string ParameterValue) :=
  match params !! name with
  | Some _ => None
  | None =>
      match overrides !! name with
      | None => Some (<[name := dflt]> params)
      | Some v => if same_type v dflt then Some (<[name := v]> params) else None
      end
  end.

(** [get_parameter(name).get_value<std::string>()]: throws ([None]) when
    the parameter is not declared or is not a string. *)
Definition get_string (params : gmap string ParameterValue) (name : string) : option string :=
  match params !! name with
  | Some (PString s) => Some s
  | _ => None
  end.

(** [get_parameter(name).get_value<bool>()]. *)
Definition get_bool (params : gmap string ParameterValue) (name : string) : option bool :=
  match params !! name with
  | Some (PBool b) => Some b
  | _ => None
  end.

Inductive Severity := INFO | WARN | ERROR.

End Rclcpp.

(** ** The operating system as [initialize] sees it *)

Record OS := {
  os_stat : string → option Z;   (* [::stat(path)]: [st_mode] when it returns 0 *)
  os_can_create : string → bool; (* whether opening [path] for writing succeeds *)
  os_localtime : Std.tm          (* [*localtime(&t)] for [t = time(nullptr)] *)
}.

(** ** class RawDataStreamPa *)

Import Rclcpp.

Record RawDataStreamPa := {
  (* members declared by the class *)
  flag_publish_ : bool;
  is_ros_subscriber_ : bool;
  file_dir_ : string;
  file_name_ : string;
  file_handle_ : Std.ofstream;
  (* [raw_pub_]: the messages handed to the publisher, oldest first *)
  raw_pub_ : list Msg.UInt8MultiArray;
  (* [raw_data_stream_sub_]: the topic whose messages are bound to
     [msgCallback], once subscribed *)
  raw_data_stream_sub_ : option string;
  (* the rclcpp::Node base: declared parameters, and the logger's output *)
  parameters : gmap string ParameterValue;
  rosout : list (Severity * string);
  (* the files written through [file_handle_], with their contents *)
  disk : gmap string (list byte)
}.

Definition set_flag_publish_ (b : bool) (s : RawDataStreamPa) : RawDataStreamPa :=
  {| flag_publish_ := b; is_ros_subscriber_ := is_ros_subscriber_ s;
     file_dir_ := file_dir_ s; file_name_ := file_name_ s;
     file_handle_ := file_handle_ s; raw_pub_ := raw_pub_ s;
     raw_data_stream_sub_ := raw_data_stream_sub_ s;
     parameters := parameters s; rosout := rosout s; disk := disk s |}.

Definition set_file_dir_ (d : string) (s : RawDataStreamPa) : RawDataStreamPa :=
  {| flag_publish_ := flag_publish_ s; is_ros_subscriber_ := is_ros_subscriber_ s;
     file_dir_ := d; file_name_ := file_name_ s;
     file_handle_ := file_handle_ s; raw_pub_ := raw_pub_ s;
     raw_data_stream_sub_ := raw_data_stream_sub_ s;
     parameters := parameters s; rosout := rosout s; disk := disk s |}.

Definition set_file_name_ (n : string) (s : RawDataStreamPa) : RawDataStreamPa :=
  {| flag_publish_ := flag_publish_ s; is_ros_subscriber_ := is_ros_subscriber_ s;
     file_dir_ := file_dir_ s; file_name_ := n;
     file_handle_ := file_handle_ s; raw_pub_ := raw_pub_ s;
     raw_data_stream_sub_ := raw_data_stream_sub_ s;
     parameters := parameters s; rosout := rosout s; disk := disk s |}.

(** The stream and the files behind it change together. *)
Definition set_file (fd : Std.ofstream * gmap string (list byte)) (s : RawDataStreamPa)
  : RawDataStreamPa :=
  {| flag_publish_ := flag_publish_ s; is_ros_subscriber_ := is_ros_subscriber_ s;
     file_dir_ := file_dir_ s; file_name_ := file_name_ s;
     file_handle_ := fst fd; raw_pub_ := raw_pub_ s;
     raw_data_stream_sub_ := raw_data_stream_sub_ s;
     parameters := parameters s; rosout := rosout s; disk := snd fd |}.

Definition set_raw_data_stream_sub_ (t : option string) (s : RawDataStreamPa)
  : RawDataStreamPa :=
  {| flag_publish_ := flag_publish_ s; is_ros_subscriber_ := is_ros_subscriber_ s;
     file_dir_ := file_dir_ s; file_name_ := file_name_ s;
     file_handle_ := file_handle_ s; raw_pub_ := raw_pub_ s;
     raw_data_stream_sub_ := t;
     parameters := parameters s; rosout := rosout s; disk := disk s |}.

(** [raw_pub_->publish(msg)]. *)
Definition publish (msg : Msg.UInt8MultiArray) (s : RawDataStreamPa) : RawDataStreamPa :=
  {| flag_publish_ := flag_publish_ s; is_ros_subscriber_ := is_ros_subscriber_ s;
     file_dir_ := file_dir_ s; file_name_ := file_name_ s;
     file_handle_ := file_handle_ s; raw_pub_ := raw_pub_ s ++ [msg];
     raw_data_stream_sub_ := raw_data_stream_sub_ s;
     parameters := parameters s; rosout := rosout s; disk := disk s |}.

(** [RCLCPP_INFO], [RCLCPP_WARN], [RCLCPP_ERROR] with the formatted text. *)
Definition RCLCPP_LOG (lvl : Severity) (text : string) (s : RawDataStreamPa)
  : RawDataStreamPa :=
  {| flag_publish_ := flag_publish_ s; is_ros_subscriber_ := is_ros_subscriber_ s;
     file_dir_ := file_dir_ s; file_name_ := file_name_ s;
     file_handle_ := file_handle_ s; raw_pub_ := raw_pub_ s;
     raw_data_stream_sub_ := raw_data_stream_sub_ s;
     parameters := parameters s; rosout := rosout s ++ [(lvl, text)]; disk := disk s |}.

(** The double quote character of the log texts. *)
Definition dq : string := String (ascii_of_nat 34) EmptyString.

(** *** Constructor (lines 57-66) *)

Definition construct (overrides : gmap string ParameterValue) (is_ros_subscriber : bool)
  : option RawDataStreamPa :=
  p1 ← declare_parameter overrides "dir" (PString "") ∅;
  p2 ← declare_parameter overrides "raw_data_stream.dir" (PString "") p1;
  p3 ← declare_parameter overrides "raw_data_stream.publish" (PBool false) p2;
  Some {| flag_publish_ := false;
          is_ros_subscriber_ := is_ros_subscriber;
          file_dir_ := "";
          file_name_ := "";
          file_handle_ := Std.of_new;
          raw_pub_ := [];
          raw_data_stream_sub_ := None;
          parameters := p3;
          rosout := [];
          disk := ∅ |}.

(** *** getRosParams (lines 68-76) *)

Definition getRosParams (s : RawDataStreamPa) : option RawDataStreamPa :=
  if is_ros_subscriber_ s then
    d ← get_string (parameters s) "dir";
    Some (set_file_dir_ d s)
  else
    d ← get_string (parameters s) "raw_data_stream.dir";
    p ← get_bool (parameters s) "raw_data_stream.publish";
    Some (set_flag_publish_ p (set_file_dir_ d s)).

(** *** isEnabled (lines 78-85) *)

Definition isEnabled (s : RawDataStreamPa) : bool :=
  if is_ros_subscriber_ s then negb (Std.str_empty (file_dir_ s))
  else flag_publish_ s || negb (Std.str_empty (file_dir_ s)).

(** *** str2uint8 (lines 166-181) *)

Definition str2uint8 (str : list byte) : Msg.UInt8MultiArray :=
  let msg := Msg.UInt8MultiArray_new in
  let msg := Msg.set_data_offset 0 msg in
  let msg := Msg.set_dim (Msg.dim (Msg.layout msg) ++ [Msg.MultiArrayDimension_new]) msg in
  let msg := Msg.set_dim (alter (Msg.set_size (Msg.to_uint32 (length str))) 0%nat (Msg.dim (Msg.layout msg))) msg in
  let msg := Msg.set_dim (alter (Msg.set_stride 1) 0%nat (Msg.dim (Msg.layout msg))) msg in
  let msg := Msg.set_dim (alter (Msg.set_label "raw_data_stream") 0%nat (Msg.dim (Msg.layout msg))) msg in
  let msg := Msg.set_data (Std.resize (length str) (Msg.data msg)) msg in
  let msg := Msg.set_data (Std.copy str (Msg.data msg)) msg in
  msg.

(** *** publishMsg (lines 183-186) *)

Definition publishMsg (str : list byte) (s : RawDataStreamPa) : RawDataStreamPa :=
  publish (str2uint8 str) s.

(** *** saveToFile (lines 188-198) *)

Definition saveToFile (str : list byte) (s : RawDataStreamPa) : RawDataStreamPa :=
  if Std.of_is_open (file_handle_ s) then
    set_file (Std.insert str (file_handle_ s) (disk s)) s
  else s.

(** *** ubloxCallback (lines 146-156) *)

Definition ubloxCallback (data : list byte) (size : nat) (s : RawDataStreamPa)
  : option RawDataStreamPa :=
  str ← Std.string_of_buffer data size;
  let s := if flag_publish_ s then publishMsg str s else s in
  Some (saveToFile str s).

(** *** msgCallback (lines 158-164) *)

(** The string rebuilt from the message (lines 161-162). *)
Definition msg_str (msg : Msg.UInt8MultiArray) : list byte :=
  let str := Std.fill_n (length (Msg.data msg)) " "%byte in
  Std.copy (Msg.data msg) str.

Definition msgCallback (msg : Msg.UInt8MultiArray) (s : RawDataStreamPa) : RawDataStreamPa :=
  saveToFile (msg_str msg) s.

(** *** initialize (lines 87-144) *)

(** Lines 117-131: the file name built from the broken-down local time. *)
Definition filename (time_struct : Std.tm) : string :=
  let f := Std.ss_new in
  let f := Std.put_int (Std.tm_year time_struct + 1900) (Std.fill "0" (Std.width 4 f)) in
  let f := Std.put_char "_" (Std.width 0 f) in
  let f := Std.put_int (Std.tm_mon time_struct + 1) (Std.fill "0" (Std.width 2 f)) in
  let f := Std.put_char "_" (Std.width 0 f) in
  let f := Std.put_int (Std.tm_mday time_struct) (Std.fill "0" (Std.width 2 f)) in
  let f := Std.put_char "_" (Std.width 0 f) in
  let f := Std.put_int (Std.tm_hour time_struct) (Std.fill "0" (Std.width 2 f)) in
  let f := Std.put_int (Std.tm_min time_struct) (Std.fill "0" (Std.width 2 f)) in
  let f := Std.put ".log" (Std.width 0 f) in
  Std.ss_str f.

(** Lines 89-97: the channel side. *)
Definition initialize_channel (s : RawDataStreamPa) : RawDataStreamPa :=
  if is_ros_subscriber_ s then
    let s := RCLCPP_LOG INFO "Subscribing to raw data stream." s in
    set_raw_data_stream_sub_ (Some "raw_data_stream") s
  else if flag_publish_ s then
    let s := RCLCPP_LOG INFO "Publishing raw data stream." s in
    publishMsg [] s
  else s.

(** Lines 99-143: the file side. *)
Definition initialize_file (os : OS) (s : RawDataStreamPa) : RawDataStreamPa :=
  if negb (Std.str_empty (file_dir_ s)) then
    match os_stat os (file_dir_ s) with
    | None =>
        RCLCPP_LOG ERROR
          ("Can't log raw data to file. Directory " +:+ dq +:+ file_dir_ s +:+ dq
           +:+ " does not exist.") s
    | Some st_mode =>
        if negb (Z.land st_mode Std.S_IFDIR =? Std.S_IFDIR)%Z then
          RCLCPP_LOG ERROR
            ("Can't log raw data to file. " +:+ dq +:+ file_dir_ s +:+ dq
             +:+ " exists, but is not a directory.") s
        else
          let s :=
            if negb (bool_decide (Std.back (file_dir_ s) = Some "/"%char))
            then set_file_dir_ (file_dir_ s +:+ "/") s else s in
          let time_struct := os_localtime os in
          let s := set_file_name_ (file_dir_ s +:+ filename time_struct) s in
          let s := set_file (Std.open (os_can_create os) (file_name_ s)
                               (file_handle_ s) (disk s)) s in
          RCLCPP_LOG INFO
            ("Logging raw data to file " +:+ dq +:+ file_name_ s +:+ dq) s
    end
  else s.

Definition initialize (os : OS) (s : RawDataStreamPa) : RawDataStreamPa :=
  initialize_file os (initialize_channel s).

(** Delivery of a message on a topic by the executor: the handler bound by
    [create_subscription] runs when the node is subscribed to that topic. *)
Definition deliver (topic : string) (msg : Msg.UInt8MultiArray) (s : RawDataStreamPa)
  : RawDataStreamPa :=
  if bool_decide (raw_data_stream_sub_ s = Some topic) then msgCallback msg s else s.

(** A finite sequence of chunks routed to the file-write path, in arrival
    order. *)
Definition saveAllToFile (chunks : list (list byte)) (s : RawDataStreamPa)
  : RawDataStreamPa :=
  foldl (λ s str, saveToFile str s) s chunks.

(** The states of a Session: the node is constructed, its parameters are
    read, it is initialised once, and from then on the two entry points run
    one after the other. The index is the list of chunks routed to the
    file-write path since initialisation, in arrival order. *)
Inductive Session (os : OS) : list (list byte) → RawDataStreamPa → Prop :=
| Session_wired overrides b s0 s1 :
    construct overrides b = Some s0 →
    getRosParams s0 = Some s1 →
    Session os [] (initialize os s1)
| Session_ublox data size chunks s s' :
    Session os chunks s →
    ubloxCallback data size s = Some s' →
    Session os (chunks ++ [take size data]) s'
| Session_msg msg chunks s :
    Session os chunks s →
    Session os (chunks ++ [Msg.data msg]) (msgCallback msg s).

(** The directory with a separator appended when its last character is not
    one (the normalised directory of the specification). *)
Definition with_separator (d : string) : string :=
  if bool_decide (Std.back d = Some "/"%char) then d else d +:+ "/".

(** The configuration resolver as section 6 of the specification words it:
    [dir] is the producer-mode directory, [raw_data_stream.dir] the relay-mode
    directory, and [raw_data_stream.publish] is read in relay mode only (the
    flag keeps its initial value in producer mode). Stated for comparison with
    [getRosParams]. *)
Definition resolver_as_specified : Prop :=
  ∀ (overrides : gmap string ParameterValue) (b : bool) (s s' : RawDataStreamPa),
    construct overrides b = Some s →
    getRosParams s = Some s' →
    (b = false →
       parameters s !! "dir" = Some (PString (file_dir_ s'))
       ∧ flag_publish_ s' = flag_publish_ s)
    ∧ (b = true →
       parameters s !! "raw_data_stream.dir" = Some (PString (file_dir_ s'))
       ∧ parameters s !! "raw_data_stream.publish" = Some (PBool (flag_publish_ s'))).

(** The local time 2024-03-07 09:05. *)
Definition tm_2024_03_07_0905 : Std.tm :=
  {| Std.tm_min := 5; Std.tm_hour := 9; Std.tm_mday := 7;
     Std.tm_mon := 2; Std.tm_year := 124 |}.

(** A host on which [/dev/sda] is a block device (mode 060660) and nothing
    can be created below it; the clock reads 2024-03-07 09:05. *)
Definition os_block_device : OS :=
  {| os_stat := λ p, if bool_decide (p = "/dev/sda") then Some 24944%Z else None;
     os_can_create := λ _, false;
     os_localtime := tm_2024_03_07_0905 |}.

(** A host on which [/tmp/raw] and [/tmp/relay] are directories (mode 040755)
    in which files can be created; the clock reads 2024-03-07 09:05. *)
Definition os_tmp : OS :=
  {| os_stat := λ p, if bool_decide (p = "/tmp/raw") || bool_decide (p = "/tmp/relay")
                     then Some 16877%Z else None;
     os_can_create := λ _, true;
     os_localtime := tm_2024_03_07_0905 |}.

(** Launch overrides that set all three parameters. *)
Definition overrides_example : gmap string ParameterValue :=
  <["raw_data_stream.publish" := PBool true]>
    (<["raw_data_stream.dir" := PString "/tmp/raw"]>
       (<["dir" := PString "/tmp/relay"]> ∅)).

(** Launch overrides that point the relay at the block device. *)
Definition overrides_block_device : gmap string ParameterValue :=
  <["dir" := PString "/dev/sda"]> ∅.

(** The node the constructor builds under [overrides_example]. *)
Definition node_example (is_ros_subscriber : bool) : RawDataStreamPa :=
  {| flag_publish_ := false;
     is_ros_subscriber_ := is_ros_subscriber;
     file_dir_ := "";
     file_name_ := "";
     file_handle_ := Std.of_new;
     raw_pub_ := [];
     raw_data_stream_sub_ := None;
     parameters := overrides_example;
     rosout := [];
     disk := ∅ |}.

(** The same node once [getRosParams] has run, as a relay and as a producer. *)
Definition node_relay : RawDataStreamPa :=
  set_file_dir_ "/tmp/relay" (node_example true).
Definition node_producer : RawDataStreamPa :=
  set_flag_publish_ true (set_file_dir_ "/tmp/raw" (node_example false)).

(** What a Session maintains: the stream is either closed, with no file
    written, or open in a good state on [file_name_], the only file, which
    holds the concatenation of the chunks routed so far. *)
Definition stream_invariant (chunks : list (list byte)) (s : RawDataStreamPa) : Prop :=
  (Std.of_is_open (file_handle_ s) = false ∧ disk s = ∅)
  ∨ (file_handle_ s
     = {| Std.of_is_open := true; Std.of_fail := false; Std.of_path := file_name_ s |}
     ∧ disk s = {[ file_name_ s := concat chunks ]}).

(** ** Runs of the dispatcher *)

(** What happens to an initialised node: the device driver calls
    [ubloxCallback] on a buffer, or the executor delivers a message on a
    topic. *)
Inductive Event :=
| Ublox (data : list byte) (size : nat)
| Delivery (topic : string) (msg : Msg.UInt8MultiArray).

Definition step (e : Event) (s : RawDataStreamPa) : option RawDataStreamPa :=
  match e with
  | Ublox data size => ubloxCallback data size s
  | Delivery topic msg => Some (deliver topic msg s)
  end.

Fixpoint run (es : list Event) (s : RawDataStreamPa) : option RawDataStreamPa :=
  match es with
  | [] => Some s
  | e :: es' => s' ← step e s; run es' s'
  end.

(** The chunk an event brings from the device, if it is a device event. *)
Definition captured (e : Event) : option (list byte) :=
  match e with
  | Ublox data size => Some (take size data)
  | Delivery _ _ => None
  end.

(** The chunk an event routes to [saveToFile] on a node whose subscription
    is [sub], if it routes one. *)
Definition routed (sub : option string) (e : Event) : option (list byte) :=
  match e with
  | Ublox data size => Some (take size data)
  | Delivery topic msg =>
      if bool_decide (sub = Some topic) then Some (Msg.data msg) else None
  end.

(** The driver's side of the contract: the buffer holds [size] bytes. *)
Definition in_bounds (e : Event) : Prop :=
  match e with
  | Ublox data size => size ≤ length data
  | Delivery _ _ => True
  end.

(** The node the constructor builds without launch overrides; [getRosParams]
    leaves it as it is. *)
Definition node_default (is_ros_subscriber : bool) : RawDataStreamPa :=
  {| flag_publish_ := false;
     is_ros_subscriber_ := is_ros_subscriber;
     file_dir_ := "";
     file_name_ := "";
     file_handle_ := Std.of_new;
     raw_pub_ := [];
     raw_data_stream_sub_ := None;
     parameters :=
       <["raw_data_stream.publish" := PBool false]>
         (<["raw_data_stream.dir" := PString ""]> (<["dir" := PString ""]> ∅));
     rosout := [];
     disk := ∅ |}.

(** A run with chunks from the device and deliveries on two topics. *)
Definition events_example : list Event :=
  [ Ublox [x01; x02; x03; x04] 3;
    Delivery "raw_data_stream" (str2uint8 [x0a; x0b]);
    Ublox [] 0;
    Delivery "other" (str2uint8 [x0c]);
    Ublox [x05] 1 ].

(** ** The shape of the file name *)

(** A number in a zero-filled field of width [w], as the stream prints it. *)
Definition field (w : nat) (z : Z) : string :=
  Std.fill_string (w - String.length (Std.to_string z)) "0" +:+ Std.to_string z.

(** The number a zero-filled field shows. *)
Definition field_value (f : string) : option Z :=
  Z.of_int <$> NilZero.int_of_string f.

(** A broken-down time of the Gregorian calendar with a year of at most four
    digits. *)
Definition calendar (t : Std.tm) : Prop :=
  (0 ≤ Std.tm_year t + 1900 ≤ 9999)%Z
  ∧ (0 ≤ Std.tm_mon t ≤ 11)%Z
  ∧ (1 ≤ Std.tm_mday t ≤ 31)%Z
  ∧ (0 ≤ Std.tm_hour t ≤ 23)%Z
  ∧ (0 ≤ Std.tm_min t ≤ 59)%Z.

(** Every number below [bound] fills a field of width [w] exactly and can be
    read back from it; decided by running the printer on each of them. *)
Definition fields_exact (w bound : nat) : bool :=
  forallb (λ n, bool_decide (field_value (field w (Z.of_nat n)) = Some (Z.of_nat n))
                && (String.length (field w (Z.of_nat n)) =? w))
    (seq 0 bound).

(** A host on which [/tmp/raw] is a directory in which nothing can be
    created (a read-only file system, say). *)
Definition os_read_only : OS :=
  {| os_stat := λ p, if bool_decide (p = "/tmp/raw") then Some 16877%Z else None;
     os_can_create := λ _, false;
     os_localtime := tm_2024_03_07_0905 |}.

(** A host that answers for [/tmp/raw] with or without the trailing
    separator, as a file system does for a directory. *)
Definition os_tmp_raw : OS :=
  {| os_stat := λ p, if bool_decide (p = "/tmp/raw") || bool_decide (p = "/tmp/raw/")
                     then Some 16877%Z else None;
     os_can_create := λ _, true;
     os_localtime := tm_2024_03_07_0905 |}.

(** The local time 1999-12-31 23:59. *)
Definition tm_1999_12_31_2359 : Std.tm :=
  {| Std.tm_min := 59; Std.tm_hour := 23; Std.tm_mday := 31;
     Std.tm_mon := 11; Std.tm_year := 99 |}.

(** * Properties *)

(** ** Standard library facts *)

Section StdFacts.

Lemma str_empty_spec (s : string) : Std.str_empty s = true ↔ s = "".
Proof. destruct s; simpl; split; congruence. Qed.

Lemma str_empty_false (s : string) : Std.str_empty s = false ↔ s ≠ "".
Proof. destruct s; simpl; split; congruence. Qed.

Lemma copy_fill_n (src : list byte) (c : byte) :
  Std.copy src (Std.fill_n (length src) c) = src.
Proof.
  unfold Std.fill_n.
  induction src as [|b src IH]; simpl; [reflexivity|].
  now rewrite IH.
Qed.

Lemma copy_length (src dst : list byte) :
  Std.copy_fits src dst → length (Std.copy src dst) = length dst.
Proof.
  unfold Std.copy_fits. revert dst.
  induction src as [|b src IH]; intros [|d dst] Hfit; simpl in *; try lia.
  rewrite IH; [reflexivity | lia].
Qed.

Lemma resize_nil (n : nat) : Std.resize n [] = Std.fill_n n x00.
Proof. unfold Std.resize. rewrite take_nil. simpl. now rewrite Nat.sub_0_r. Qed.

Lemma fill_n_length (n : nat) (c : byte) : length (Std.fill_n n c) = n.
Proof. apply length_replicate. Qed.

Lemma string_of_buffer_Some (data : list byte) (size : nat) :
  size ≤ length data →
  Std.string_of_buffer data size = Some (take size data).
Proof.
  intros Hle. unfold Std.string_of_buffer.
  destruct (Nat.leb_spec size (length data)); [reflexivity | lia].
Qed.

Lemma insert_good (str : list byte) (f : Std.ofstream) (d : gmap string (list byte)) :
  Std.of_is_open f = true → Std.of_fail f = false →
  Std.insert str f d = (f, <[Std.of_path f := default [] (d !! Std.of_path f) ++ str]> d).
Proof. intros Ho Hf. unfold Std.insert. now rewrite Hf, Ho. Qed.

End StdFacts.

(** ** The channel encoder *)

Section Encoder.

(** The message [str2uint8] builds, field by field. *)
Lemma str2uint8_eq (str : list byte) :
  str2uint8 str =
  {| Msg.layout :=
       {| Msg.dim := [ {| Msg.label := "raw_data_stream";
                          Msg.size := Msg.to_uint32 (length str);
                          Msg.stride := 1 |} ];
          Msg.data_offset := 0 |};
     Msg.data := str |}.
Proof.
  unfold str2uint8. cbn -[Std.resize Std.copy Msg.to_uint32].
  unfold Msg.set_data. cbn -[Std.resize Std.copy Msg.to_uint32].
  now rewrite resize_nil, copy_fill_n.
Qed.

(** Both [std::copy] calls of the source write inside their destination. *)
Lemma copies_fit (str : list byte) (msg : Msg.UInt8MultiArray) :
  Std.copy_fits str (Std.resize (length str) [])
  ∧ Std.copy_fits (Msg.data msg) (Std.fill_n (length (Msg.data msg)) " "%byte).
Proof.
  unfold Std.copy_fits. rewrite resize_nil, !fill_n_length. lia.
Qed.

Lemma msg_str_data (msg : Msg.UInt8MultiArray) : msg_str msg = Msg.data msg.
Proof. unfold msg_str. apply copy_fill_n. Qed.

End Encoder.

(** ** isEnabled *)

Section Enabled.

(** C1. In producer mode ([is_ros_subscriber_] false) [isEnabled] returns
    true exactly when the publish flag is set or the log directory is not
    empty; in relay mode ([is_ros_subscriber_] true) it returns true exactly
    when the log directory is not empty, whatever the publish flag is. *)
Theorem isEnabled_iff (s : RawDataStreamPa) :
  (is_ros_subscriber_ s = false →
     (isEnabled s = true ↔ flag_publish_ s = true ∨ file_dir_ s ≠ ""))
  ∧ (is_ros_subscriber_ s = true →
     (isEnabled s = true ↔ file_dir_ s ≠ "")
     ∧ ∀ b, isEnabled (set_flag_publish_ b s) = isEnabled s).
Proof.
  unfold isEnabled. split; intros Hmode; rewrite ?Hmode; simpl; rewrite ?Hmode.
  - rewrite orb_true_iff, negb_true_iff, str_empty_false. reflexivity.
  - split; [|reflexivity].
    rewrite negb_true_iff, str_empty_false. reflexivity.
Qed.

Lemma isEnabled_iff_witness :
  (isEnabled node_producer = true
   ↔ flag_publish_ node_producer = true ∨ file_dir_ node_producer ≠ "")
  ∧ (isEnabled node_relay = true ↔ file_dir_ node_relay ≠ "")
  ∧ isEnabled (set_flag_publish_ true (node_example true)) = false.
Proof.
  split; [exact (proj1 (isEnabled_iff node_producer) eq_refl)|].
  split; [exact (proj1 (proj2 (isEnabled_iff node_relay) eq_refl))|].
  exact (proj2 (proj2 (isEnabled_iff (node_example true)) eq_refl) true).
Defined.

End Enabled.

(** ** str2uint8 and the channel-receive entry *)

Section RoundTrip.

(** C3. Encoding a byte sequence with [str2uint8] and reading the message's
    data bytes back in order (as [msgCallback] does) gives the sequence
    itself, same length, same order; the empty sequence encodes to a message
    whose dimension has size 0 and whose data holds no byte. *)
Theorem str2uint8_roundtrip (str : list byte) :
  msg_str (str2uint8 str) = str
  ∧ Msg.data (str2uint8 str) = str
  ∧ length (Msg.data (str2uint8 str)) = length str
  ∧ Msg.size <$> Msg.dim (Msg.layout (str2uint8 [])) = [0%Z]
  ∧ Msg.data (str2uint8 []) = [].
Proof.
  rewrite msg_str_data, !str2uint8_eq. simpl. repeat split; reflexivity.
Qed.

(** C10. [msgCallback] hands [saveToFile] exactly the bytes of [msg.data]:
    as many bytes as [msg.data.size()], and the same result whatever the
    layout (offset, dimensions, sizes, strides, labels) says. *)
Theorem msgCallback_ignores_layout (l l' : Msg.MultiArrayLayout) (d : list byte)
    (s : RawDataStreamPa) :
  length (msg_str {| Msg.layout := l; Msg.data := d |}) = length d
  ∧ msgCallback {| Msg.layout := l; Msg.data := d |} s = saveToFile d s
  ∧ msgCallback {| Msg.layout := l; Msg.data := d |} s
    = msgCallback {| Msg.layout := l'; Msg.data := d |} s.
Proof.
  unfold msgCallback. rewrite !msg_str_data. simpl. repeat split; reflexivity.
Qed.

End RoundTrip.

(** ** The file writer *)

Section FileWriter.

Lemma saveToFile_closed (str : list byte) (s : RawDataStreamPa) :
  Std.of_is_open (file_handle_ s) = false → saveToFile str s = s.
Proof. intros Hc. unfold saveToFile. now rewrite Hc. Qed.

Lemma saveToFile_open (str : list byte) (s : RawDataStreamPa) :
  Std.of_is_open (file_handle_ s) = true →
  Std.of_fail (file_handle_ s) = false →
  saveToFile str s =
  set_file (file_handle_ s,
            <[Std.of_path (file_handle_ s) :=
                default [] (disk s !! Std.of_path (file_handle_ s)) ++ str]> (disk s)) s.
Proof.
  intros Ho Hg. unfold saveToFile. rewrite Ho.
  now rewrite insert_good.
Qed.

(** [saveToFile] touches the stream's file and nothing else. *)
Lemma saveToFile_frame (str : list byte) (s : RawDataStreamPa) :
  flag_publish_ (saveToFile str s) = flag_publish_ s
  ∧ is_ros_subscriber_ (saveToFile str s) = is_ros_subscriber_ s
  ∧ file_dir_ (saveToFile str s) = file_dir_ s
  ∧ file_name_ (saveToFile str s) = file_name_ s
  ∧ file_handle_ (saveToFile str s) = file_handle_ s
  ∧ raw_pub_ (saveToFile str s) = raw_pub_ s
  ∧ raw_data_stream_sub_ (saveToFile str s) = raw_data_stream_sub_ s
  ∧ parameters (saveToFile str s) = parameters s
  ∧ rosout (saveToFile str s) = rosout s.
Proof.
  unfold saveToFile, Std.insert.
  destruct (Std.of_is_open (file_handle_ s)) eqn:Ho; [|repeat split; reflexivity].
  destruct (Std.of_fail (file_handle_ s)); simpl; repeat split; reflexivity.
Qed.

Lemma publishMsg_frame (str : list byte) (s : RawDataStreamPa) :
  file_handle_ (publishMsg str s) = file_handle_ s
  ∧ disk (publishMsg str s) = disk s
  ∧ file_name_ (publishMsg str s) = file_name_ s
  ∧ rosout (publishMsg str s) = rosout s.
Proof. repeat split; reflexivity. Qed.

(** A run of chunks on an open, good stream appends their concatenation. *)
Lemma saveAllToFile_open (chunks : list (list byte)) (s : RawDataStreamPa)
    (c0 : list byte) :
  Std.of_is_open (file_handle_ s) = true →
  Std.of_fail (file_handle_ s) = false →
  disk s !! Std.of_path (file_handle_ s) = Some c0 →
  file_handle_ (saveAllToFile chunks s) = file_handle_ s
  ∧ file_name_ (saveAllToFile chunks s) = file_name_ s
  ∧ disk (saveAllToFile chunks s)
    = <[Std.of_path (file_handle_ s) := c0 ++ concat chunks]> (disk s).
Proof.
  revert s c0. unfold saveAllToFile.
  induction chunks as [|str chunks IH]; intros s c0 Ho Hg Hc0; simpl.
  - rewrite app_nil_r. repeat split. symmetry. now apply insert_id.
  - destruct (saveToFile_frame str s) as (_ & _ & _ & Hn & Hh & _).
    specialize (IH (saveToFile str s) (c0 ++ str)).
    rewrite Hh, Hn in IH.
    destruct IH as (IH1 & IH2 & IH3); try assumption.
    + rewrite saveToFile_open by assumption. simpl.
      rewrite Hc0. simpl. apply lookup_insert_eq.
    + repeat split; try assumption.
      rewrite IH3, saveToFile_open by assumption. simpl.
      rewrite Hc0. simpl. rewrite insert_insert_eq. now rewrite app_assoc.
Qed.

End FileWriter.

(** ** Construction and configuration *)

Section Configuration.

Lemma declare_parameter_Some overrides name dflt params params' :
  declare_parameter overrides name dflt params = Some params' →
  params !! name = None
  ∧ params' = <[name := default dflt (overrides !! name)]> params
  ∧ same_type (default dflt (overrides !! name)) dflt = true.
Proof.
  unfold declare_parameter. intros H.
  destruct (params !! name); [discriminate|].
  destruct (overrides !! name) as [v|] eqn:Hov; simpl.
  - destruct (same_type v dflt) eqn:Hty; [|discriminate].
    injection H as <-. auto.
  - injection H as <-. destruct dflt; auto.
Qed.

(** What the constructor leaves behind: the members' initial values and the
    three declared parameters, each holding its override or its default. *)
Lemma construct_Some overrides b s :
  construct overrides b = Some s →
  flag_publish_ s = false
  ∧ is_ros_subscriber_ s = b
  ∧ file_dir_ s = ""
  ∧ file_name_ s = ""
  ∧ file_handle_ s = Std.of_new
  ∧ raw_pub_ s = []
  ∧ raw_data_stream_sub_ s = None
  ∧ rosout s = []
  ∧ disk s = ∅
  ∧ (∃ d, parameters s !! "dir" = Some (PString d)
          ∧ PString d = default (PString "") (overrides !! "dir"))
  ∧ (∃ d, parameters s !! "raw_data_stream.dir" = Some (PString d)
          ∧ PString d = default (PString "") (overrides !! "raw_data_stream.dir"))
  ∧ (∃ p, parameters s !! "raw_data_stream.publish" = Some (PBool p)
          ∧ PBool p = default (PBool false) (overrides !! "raw_data_stream.publish")).
Proof.
  unfold construct. intros H.
  destruct (declare_parameter overrides "dir" _ _) as [p1|] eqn:H1; [|discriminate].
  simpl in H.
  destruct (declare_parameter overrides "raw_data_stream.dir" _ _) as [p2|] eqn:H2;
    [|discriminate].
  simpl in H.
  destruct (declare_parameter overrides "raw_data_stream.publish" _ _) as [p3|] eqn:H3;
    [|discriminate].
  simpl in H. injection H as <-. simpl.
  apply declare_parameter_Some in H1 as (_ & -> & T1).
  apply declare_parameter_Some in H2 as (_ & -> & T2).
  apply declare_parameter_Some in H3 as (_ & -> & T3).
  repeat (split; [reflexivity|]).
  destruct (default (PString "") (overrides !! "dir")) as [d1| |] eqn:E1;
    try discriminate.
  destruct (default (PString "") (overrides !! "raw_data_stream.dir")) as [d2| |] eqn:E2;
    try discriminate.
  destruct (default (PBool false) (overrides !! "raw_data_stream.publish")) as [|p3|] eqn:E3;
    try discriminate.
  split; [|split].
  - exists d1. split; [|reflexivity].
    rewrite lookup_insert_ne by discriminate.
    rewrite lookup_insert_ne by discriminate.
    apply lookup_insert_eq.
  - exists d2. split; [|reflexivity].
    rewrite lookup_insert_ne by discriminate.
    apply lookup_insert_eq.
  - exists p3. split; [|reflexivity]. apply lookup_insert_eq.
Qed.

(** The constructor fails only on an override of the wrong type. *)
Lemma construct_total overrides b :
  same_type (default (PString "") (overrides !! "dir")) (PString "") = true →
  same_type (default (PString "") (overrides !! "raw_data_stream.dir")) (PString "") = true →
  same_type (default (PBool false) (overrides !! "raw_data_stream.publish")) (PBool false) = true →
  is_Some (construct overrides b).
Proof.
  intros T1 T2 T3. unfold construct, declare_parameter.
  rewrite lookup_empty.
  destruct (overrides !! "dir") as [v1|]; simpl in *; rewrite ?T1; simpl;
    (rewrite lookup_insert_ne by discriminate); rewrite lookup_empty;
    destruct (overrides !! "raw_data_stream.dir") as [v2|]; simpl in *; rewrite ?T2; simpl;
    (rewrite !lookup_insert_ne by discriminate); rewrite lookup_empty;
    destruct (overrides !! "raw_data_stream.publish") as [v3|]; simpl in *; rewrite ?T3;
    simpl; eauto.
Qed.

Lemma getRosParams_frame s s' :
  getRosParams s = Some s' →
  is_ros_subscriber_ s' = is_ros_subscriber_ s
  ∧ file_name_ s' = file_name_ s
  ∧ file_handle_ s' = file_handle_ s
  ∧ raw_pub_ s' = raw_pub_ s
  ∧ raw_data_stream_sub_ s' = raw_data_stream_sub_ s
  ∧ parameters s' = parameters s
  ∧ rosout s' = rosout s
  ∧ disk s' = disk s.
Proof.
  unfold getRosParams. intros H.
  destruct (is_ros_subscriber_ s) eqn:Hmode.
  - destruct (get_string _ _); [|discriminate]. simpl in H. injection H as <-.
    repeat split; try reflexivity; exact Hmode.
  - destruct (get_string _ _); [|discriminate]. simpl in H.
    destruct (get_bool _ _); [|discriminate]. simpl in H. injection H as <-.
    repeat split; try reflexivity; exact Hmode.
Qed.

End Configuration.

(** ** Initialisation *)

Section Initialisation.

Variable os : OS.

(** The channel side leaves the configuration and the file side alone. *)
Lemma initialize_channel_frame (s : RawDataStreamPa) :
  flag_publish_ (initialize_channel s) = flag_publish_ s
  ∧ is_ros_subscriber_ (initialize_channel s) = is_ros_subscriber_ s
  ∧ file_dir_ (initialize_channel s) = file_dir_ s
  ∧ file_name_ (initialize_channel s) = file_name_ s
  ∧ file_handle_ (initialize_channel s) = file_handle_ s
  ∧ parameters (initialize_channel s) = parameters s
  ∧ disk (initialize_channel s) = disk s.
Proof.
  unfold initialize_channel.
  destruct (is_ros_subscriber_ s) eqn:Hmode;
    [simpl; repeat split; try reflexivity; assumption|].
  destruct (flag_publish_ s) eqn:Hpub; simpl; repeat split; try reflexivity; assumption.
Qed.

(** The file side leaves the channel side alone. *)
Lemma initialize_file_frame (s : RawDataStreamPa) :
  flag_publish_ (initialize_file os s) = flag_publish_ s
  ∧ is_ros_subscriber_ (initialize_file os s) = is_ros_subscriber_ s
  ∧ raw_pub_ (initialize_file os s) = raw_pub_ s
  ∧ raw_data_stream_sub_ (initialize_file os s) = raw_data_stream_sub_ s
  ∧ parameters (initialize_file os s) = parameters s.
Proof.
  unfold initialize_file.
  destruct (negb (Std.str_empty (file_dir_ s))); [|repeat split; reflexivity].
  destruct (os_stat os (file_dir_ s)) as [st_mode|]; [|simpl; repeat split; reflexivity].
  destruct (negb (Z.land st_mode Std.S_IFDIR =? Std.S_IFDIR)%Z); simpl;
    [repeat split; reflexivity|].
  destruct (negb (bool_decide (Std.back (file_dir_ s) = Some "/"%char))); simpl;
    repeat split; reflexivity.
Qed.

(** A directory that [::stat] cannot find, or whose mode lacks the [S_IFDIR]
    bits: one error line, and nothing else changes. *)
Lemma initialize_file_rejected (s : RawDataStreamPa) :
  file_dir_ s ≠ "" →
  (os_stat os (file_dir_ s) = None
   ∨ ∃ st_mode, os_stat os (file_dir_ s) = Some st_mode
                ∧ Z.land st_mode Std.S_IFDIR ≠ Std.S_IFDIR) →
  ∃ text, initialize_file os s = RCLCPP_LOG ERROR text s.
Proof.
  intros Hdir Hstat. unfold initialize_file.
  apply str_empty_false in Hdir. rewrite Hdir. simpl.
  destruct Hstat as [-> | (st_mode & -> & Hbits)]; [eauto|].
  apply Z.eqb_neq in Hbits. rewrite Hbits. simpl. eauto.
Qed.

(** A directory whose mode has the [S_IFDIR] bits: the separator is added,
    the file name is computed, and the stream is opened on it. *)
Lemma initialize_file_accepted (s : RawDataStreamPa) (st_mode : Z) :
  file_dir_ s ≠ "" →
  os_stat os (file_dir_ s) = Some st_mode →
  Z.land st_mode Std.S_IFDIR = Std.S_IFDIR →
  file_dir_ (initialize_file os s) = with_separator (file_dir_ s)
  ∧ file_name_ (initialize_file os s)
    = with_separator (file_dir_ s) +:+ filename (os_localtime os)
  ∧ (file_handle_ (initialize_file os s), disk (initialize_file os s))
    = Std.open (os_can_create os)
        (with_separator (file_dir_ s) +:+ filename (os_localtime os))
        (file_handle_ s) (disk s)
  ∧ rosout (initialize_file os s)
    = rosout s ++ [(INFO, "Logging raw data to file " +:+ dq
                          +:+ (with_separator (file_dir_ s)
                               +:+ filename (os_localtime os)) +:+ dq)].
Proof.
  intros Hdir Hstat Hbits. unfold initialize_file, with_separator.
  apply str_empty_false in Hdir. rewrite Hdir, Hstat. simpl.
  apply Z.eqb_eq in Hbits. rewrite Hbits. simpl.
  destruct (bool_decide (Std.back (file_dir_ s) = Some "/"%char)); simpl;
    (destruct (Std.open _ _ _ _)); repeat split; reflexivity.
Qed.

(** With an empty directory the file side does nothing. *)
Lemma initialize_file_disabled (s : RawDataStreamPa) :
  file_dir_ s = "" → initialize_file os s = s.
Proof. intros Hdir. unfold initialize_file. now rewrite Hdir. Qed.

(** Whatever the host answers, initialising a node whose stream is closed
    either leaves the stream closed and the files as they were, or opens the
    stream, in a good state, on the freshly truncated file [file_name_]. *)
Lemma initialize_stream (s : RawDataStreamPa) :
  Std.of_is_open (file_handle_ s) = false →
  (Std.of_is_open (file_handle_ (initialize os s)) = false
   ∧ disk (initialize os s) = disk s)
  ∨ (file_handle_ (initialize os s)
     = {| Std.of_is_open := true; Std.of_fail := false;
          Std.of_path := file_name_ (initialize os s) |}
     ∧ disk (initialize os s) = <[file_name_ (initialize os s) := []]> (disk s)).
Proof.
  intros Hclosed. unfold initialize.
  destruct (initialize_channel_frame s) as (_ & _ & _ & _ & Hh & _ & Hd).
  rewrite <- Hh in Hclosed. rewrite <- Hd.
  clear Hh Hd. generalize dependent (initialize_channel s). clear s. intros s Hclosed.
  destruct (Std.str_empty (file_dir_ s)) eqn:Hdir.
  { apply str_empty_spec in Hdir. rewrite initialize_file_disabled by assumption. auto. }
  apply str_empty_false in Hdir.
  destruct (os_stat os (file_dir_ s)) as [st_mode|] eqn:Hstat.
  2: { destruct (initialize_file_rejected s Hdir) as [text ->]; auto. }
  destruct (decide (Z.land st_mode Std.S_IFDIR = Std.S_IFDIR)) as [Hbits|Hbits].
  2: { destruct (initialize_file_rejected s Hdir) as [text ->]; eauto. }
  destruct (initialize_file_accepted s st_mode Hdir Hstat Hbits)
    as (_ & Hname & Hopen & _).
  rewrite <- Hname in Hopen. unfold Std.open in Hopen. rewrite Hclosed in Hopen.
  destruct (os_can_create os (file_name_ (initialize_file os s)));
    injection Hopen as Hh Hd; rewrite Hh, Hd; simpl; auto.
Qed.

End Initialisation.

(** ** Sessions *)

Section Sessions.

Variable os : OS.

Lemma saveToFile_invariant (str : list byte) (chunks : list (list byte))
    (s : RawDataStreamPa) :
  stream_invariant chunks s → stream_invariant (chunks ++ [str]) (saveToFile str s).
Proof.
  intros [[Hclosed Hdisk] | [Hh Hdisk]].
  - left. rewrite saveToFile_closed by assumption. auto.
  - right.
    destruct (saveToFile_frame str s) as (_ & _ & _ & Hn & Hh' & _).
    rewrite Hh', Hn. split; [assumption|].
    rewrite saveToFile_open by (rewrite Hh; reflexivity).
    simpl. rewrite Hh. simpl. rewrite Hdisk.
    rewrite lookup_singleton_eq. simpl.
    rewrite insert_singleton_eq.
    rewrite concat_app. simpl. now rewrite app_nil_r.
Qed.

Lemma ubloxCallback_Some (data : list byte) (size : nat) (s s' : RawDataStreamPa) :
  ubloxCallback data size s = Some s' →
  size ≤ length data
  ∧ s' = saveToFile (take size data)
           (if flag_publish_ s then publishMsg (take size data) s else s).
Proof.
  unfold ubloxCallback, Std.string_of_buffer. intros H.
  destruct (Nat.leb_spec size (length data)) as [Hle|Hgt]; [|discriminate].
  simpl in H. injection H as <-. auto.
Qed.

(** Every state of a Session satisfies the stream invariant. *)
Lemma Session_invariant (chunks : list (list byte)) (s : RawDataStreamPa) :
  Session os chunks s → stream_invariant chunks s.
Proof.
  induction 1 as [overrides b s0 s1 Hc Hg | data size chunks s s' _ IH Hu | msg chunks s _ IH].
  - apply construct_Some in Hc as (_ & _ & _ & _ & Hh & _ & _ & _ & Hd & _).
    apply getRosParams_frame in Hg as (_ & _ & Hh1 & _ & _ & _ & _ & Hd1).
    rewrite Hh in Hh1. rewrite Hd in Hd1.
    destruct (initialize_stream os s1) as [[Hclosed Hdisk] | [Hopen Hdisk]].
    + rewrite Hh1. reflexivity.
    + left. rewrite Hdisk, Hd1. auto.
    + right. rewrite Hdisk, Hd1. split; [assumption|].
      simpl. apply insert_empty.
  - apply ubloxCallback_Some in Hu as [_ ->].
    apply saveToFile_invariant.
    destruct (flag_publish_ s); [|assumption].
    exact IH.
  - unfold msgCallback. rewrite msg_str_data. now apply saveToFile_invariant.
Qed.

(** In a Session an open stream is in a good state. *)
Lemma Session_stream_good (chunks : list (list byte)) (s : RawDataStreamPa) :
  Session os chunks s →
  Std.of_is_open (file_handle_ s) = true →
  Std.of_fail (file_handle_ s) = false.
Proof.
  intros Hsession Hopen.
  destruct (Session_invariant chunks s Hsession) as [[Hclosed _] | [Hh _]];
    [congruence | now rewrite Hh].
Qed.

End Sessions.

(** ** The configuration resolver *)

Section Resolver.

(** C2 (as the source has it). On a constructed node [getRosParams] succeeds;
    a relay ([is_ros_subscriber_] true) takes its log directory from the
    parameter [dir] and leaves the publish flag false without looking at
    [raw_data_stream.publish]; a producer takes its log directory from
    [raw_data_stream.dir] and its publish flag from
    [raw_data_stream.publish]. *)
Theorem getRosParams_reads (overrides : gmap string ParameterValue) (b : bool)
    (s : RawDataStreamPa) :
  construct overrides b = Some s →
  ∃ s', getRosParams s = Some s'
    ∧ (b = true →
         parameters s !! "dir" = Some (PString (file_dir_ s'))
         ∧ PString (file_dir_ s') = default (PString "") (overrides !! "dir")
         ∧ flag_publish_ s' = false)
    ∧ (b = false →
         parameters s !! "raw_data_stream.dir" = Some (PString (file_dir_ s'))
         ∧ PString (file_dir_ s')
           = default (PString "") (overrides !! "raw_data_stream.dir")
         ∧ parameters s !! "raw_data_stream.publish" = Some (PBool (flag_publish_ s'))
         ∧ PBool (flag_publish_ s')
           = default (PBool false) (overrides !! "raw_data_stream.publish")).
Proof.
  intros Hc.
  apply construct_Some in Hc
    as (Hpub & Hmode & _ & _ & _ & _ & _ & _ & _ & (d1 & Hd1 & Ho1) & (d2 & Hd2 & Ho2)
        & (p & Hp & Ho3)).
  unfold getRosParams, get_string, get_bool. rewrite Hmode.
  destruct b.
  - rewrite Hd1. simpl. eexists. split; [reflexivity|]. simpl.
    split; [auto | discriminate].
  - rewrite Hd2, Hp. simpl. eexists. split; [reflexivity|]. simpl.
    split; [discriminate | auto].
Qed.

Lemma getRosParams_reads_witness :
  construct overrides_example true = Some (node_example true)
  ∧ ∃ s', getRosParams (node_example true) = Some s'
    ∧ (true = true →
         parameters (node_example true) !! "dir" = Some (PString (file_dir_ s'))
         ∧ PString (file_dir_ s') = default (PString "") (overrides_example !! "dir")
         ∧ flag_publish_ s' = false)
    ∧ (true = false →
         parameters (node_example true) !! "raw_data_stream.dir"
         = Some (PString (file_dir_ s'))
         ∧ PString (file_dir_ s')
           = default (PString "") (overrides_example !! "raw_data_stream.dir")
         ∧ parameters (node_example true) !! "raw_data_stream.publish"
           = Some (PBool (flag_publish_ s'))
         ∧ PBool (flag_publish_ s')
           = default (PBool false) (overrides_example !! "raw_data_stream.publish")).
Proof.
  split; [vm_compute; reflexivity|].
  apply (getRosParams_reads overrides_example true (node_example true)).
  vm_compute; reflexivity.
Defined.

(** C2 (as the specification words it) does not hold: under
    [overrides_example] a producer ends with the directory of
    [raw_data_stream.dir], not the one of [dir]. *)
Lemma getRosParams_not_as_specified : ¬ resolver_as_specified.
Proof.
  intros Hspec.
  destruct (Hspec overrides_example false (node_example false) node_producer)
    as [Hproducer _].
  - vm_compute; reflexivity.
  - vm_compute; reflexivity.
  - destruct (Hproducer eq_refl) as [Hdir _].
    vm_compute in Hdir. discriminate Hdir.
Qed.

End Resolver.

(** ** The unconfigured node *)

Section Unconfigured.

(** C9. Right after construction the publish flag is false, the directory is
    empty and no file is open; in that state [msgCallback] and
    [ubloxCallback] return the node as it was: nothing is published, written
    or logged. Without launch overrides the constructor always succeeds. *)
Theorem construct_unconfigured (b : bool) :
  is_Some (construct ∅ b)
  ∧ ∀ (overrides : gmap string ParameterValue) (s : RawDataStreamPa),
      construct overrides b = Some s →
      flag_publish_ s = false
      ∧ file_dir_ s = ""
      ∧ Std.of_is_open (file_handle_ s) = false
      ∧ isEnabled s = false
      ∧ (∀ msg, msgCallback msg s = s)
      ∧ (∀ data size, size ≤ length data → ubloxCallback data size s = Some s).
Proof.
  split.
  { apply construct_total; reflexivity. }
  intros overrides s Hc.
  apply construct_Some in Hc as (Hpub & Hmode & Hdir & _ & Hh & _).
  assert (Hclosed : Std.of_is_open (file_handle_ s) = false) by now rewrite Hh.
  repeat split; try assumption.
  - unfold isEnabled. rewrite Hpub, Hdir. now destruct (is_ros_subscriber_ s).
  - intros msg. unfold msgCallback. now apply saveToFile_closed.
  - intros data size Hle. unfold ubloxCallback.
    rewrite string_of_buffer_Some by assumption. simpl.
    rewrite Hpub. now rewrite saveToFile_closed.
Qed.

Lemma construct_unconfigured_witness :
  construct overrides_example false = Some (node_example false)
  ∧ msgCallback (str2uint8 [x01; x02; x03]) (node_example false) = node_example false
  ∧ ubloxCallback [x01; x02; x03] 3 (node_example false) = Some (node_example false).
Proof.
  assert (Hc : construct overrides_example false = Some (node_example false))
    by (vm_compute; reflexivity).
  destruct (proj2 (construct_unconfigured false) overrides_example (node_example false) Hc)
    as (_ & _ & _ & _ & Hmsg & Hublox).
  split; [exact Hc|]. split; [apply Hmsg|].
  apply Hublox. simpl. lia.
Defined.

End Unconfigured.

(** ** The stream dispatcher *)

Section Dispatcher.

Lemma initialize_channel_relay (s : RawDataStreamPa) :
  is_ros_subscriber_ s = true →
  initialize_channel s
  = set_raw_data_stream_sub_ (Some "raw_data_stream")
      (RCLCPP_LOG INFO "Subscribing to raw data stream." s).
Proof. intros Hmode. unfold initialize_channel. now rewrite Hmode. Qed.

Lemma saveToFile_set_flag_publish_ (str : list byte) (b : bool) (s : RawDataStreamPa) :
  saveToFile str (set_flag_publish_ b s) = set_flag_publish_ b (saveToFile str s).
Proof.
  unfold saveToFile. simpl.
  destruct (Std.of_is_open (file_handle_ s)); reflexivity.
Qed.

(** C4. [ubloxCallback] on a buffer holding at least [size] bytes builds the
    chunk of exactly the first [size] bytes of the buffer. The chunk is
    encoded and handed to the publisher when the publish flag is set, and
    nothing is published otherwise. [saveToFile] always runs on the chunk:
    with no file open it changes nothing at all (no byte written, no line
    logged); with a file open and the stream in a good state the chunk is
    appended to that file. In a Session an open stream is always in a good
    state, so there the chunk is appended exactly when the file is open. *)
Theorem ubloxCallback_spec (data : list byte) (size : nat) (s : RawDataStreamPa) :
  size ≤ length data →
  ∃ s', ubloxCallback data size s = Some s'
    ∧ Std.string_of_buffer data size = Some (take size data)
    ∧ length (take size data) = size
    ∧ s' = saveToFile (take size data)
             (if flag_publish_ s then publishMsg (take size data) s else s)
    ∧ raw_pub_ s'
      = (if flag_publish_ s then raw_pub_ s ++ [str2uint8 (take size data)]
         else raw_pub_ s)
    ∧ rosout s' = rosout s
    ∧ file_handle_ s' = file_handle_ s
    ∧ (Std.of_is_open (file_handle_ s) = false →
         disk s' = disk s
         ∧ s' = (if flag_publish_ s then publishMsg (take size data) s else s))
    ∧ (Std.of_is_open (file_handle_ s) = true →
       Std.of_fail (file_handle_ s) = false →
         disk s'
         = <[Std.of_path (file_handle_ s) :=
               default [] (disk s !! Std.of_path (file_handle_ s)) ++ take size data]>
             (disk s))
    ∧ (∀ os routed, Session os routed s →
       Std.of_is_open (file_handle_ s) = true →
         disk s' = {[ file_name_ s := concat routed ++ take size data ]}).
Proof.
  intros Hle. unfold ubloxCallback.
  rewrite string_of_buffer_Some by assumption. simpl.
  eexists. split; [reflexivity|].
  split; [reflexivity|].
  split; [rewrite length_take; lia|].
  split; [reflexivity|].
  set (s1 := if flag_publish_ s then publishMsg (take size data) s else s).
  assert (Hs1 : file_handle_ s1 = file_handle_ s ∧ disk s1 = disk s
                ∧ rosout s1 = rosout s
                ∧ raw_pub_ s1 = (if flag_publish_ s
                                 then raw_pub_ s ++ [str2uint8 (take size data)]
                                 else raw_pub_ s)).
  { subst s1. destruct (flag_publish_ s); repeat split; reflexivity. }
  destruct Hs1 as (Hh & Hd & Hlog & Hpub).
  destruct (saveToFile_frame (take size data) s1) as (_ & _ & _ & _ & Hh' & Hpub' & _ & _ & Hlog').
  rewrite Hpub', Hlog', Hh', Hpub, Hlog, Hh.
  repeat split.
  - rewrite saveToFile_closed by (rewrite Hh; assumption). exact Hd.
  - rewrite saveToFile_closed by (rewrite Hh; assumption). reflexivity.
  - intros Ho Hg. rewrite saveToFile_open by (rewrite Hh; assumption).
    simpl. now rewrite Hh, Hd.
  - intros os routed Hsession Ho.
    destruct (Session_invariant os routed s Hsession) as [[Hclosed _] | [Hgood Hdisk]];
      [congruence|].
    rewrite saveToFile_open by (rewrite Hh, Hgood; reflexivity).
    simpl. rewrite Hh, Hd, Hgood, Hdisk. simpl.
    rewrite lookup_singleton_eq. simpl. apply insert_singleton_eq.
Qed.

Lemma ubloxCallback_spec_witness :
  ∃ s', ubloxCallback [x01; x02; x03; x04] 3 (initialize os_tmp node_producer) = Some s'
    ∧ raw_pub_ s' = [str2uint8 []; str2uint8 [x01; x02; x03]]
    ∧ disk s' = {[ "/tmp/raw/2024_03_07_0905.log" := [x01; x02; x03] ]}.
Proof.
  destruct (ubloxCallback_spec [x01; x02; x03; x04] 3 (initialize os_tmp node_producer))
    as (s' & Hs' & _ & _ & _ & Hpub & _ & _ & _ & Hopen & _).
  { simpl. lia. }
  exists s'. split; [exact Hs'|]. split.
  - rewrite Hpub. vm_compute. reflexivity.
  - rewrite Hopen by (vm_compute; reflexivity). vm_compute. reflexivity.
Defined.

(** C5. The string [msgCallback] rebuilds is the message's data, byte for
    byte and in order, and it goes to [saveToFile] only: the publisher gets
    nothing, and the publish flag has no influence on what happens. A relay,
    once initialised, is subscribed to [raw_data_stream], so that each
    message delivered there runs [msgCallback]; its initialisation publishes
    nothing either. *)
Theorem msgCallback_relay (msg : Msg.UInt8MultiArray) (s : RawDataStreamPa) :
  msg_str msg = Msg.data msg
  ∧ msgCallback msg s = saveToFile (Msg.data msg) s
  ∧ raw_pub_ (msgCallback msg s) = raw_pub_ s
  ∧ (∀ b, msgCallback msg (set_flag_publish_ b s)
          = set_flag_publish_ b (msgCallback msg s))
  ∧ (∀ os, is_ros_subscriber_ s = true →
       deliver "raw_data_stream" msg (initialize os s)
       = saveToFile (Msg.data msg) (initialize os s)
       ∧ raw_pub_ (deliver "raw_data_stream" msg (initialize os s)) = raw_pub_ s).
Proof.
  unfold msgCallback. rewrite msg_str_data.
  destruct (saveToFile_frame (Msg.data msg) s) as (_ & _ & _ & _ & _ & Hpub & _).
  split; [reflexivity|]. split; [reflexivity|]. split; [exact Hpub|].
  split; [intros b; apply saveToFile_set_flag_publish_|].
  intros os Hmode. unfold deliver, initialize.
  destruct (initialize_file_frame os (initialize_channel s)) as (_ & _ & Hp & Hsub & _).
  rewrite Hsub, (initialize_channel_relay s Hmode). simpl.
  unfold msgCallback. rewrite msg_str_data.
  split; [reflexivity|].
  destruct (saveToFile_frame (Msg.data msg)
              (initialize_file os
                 (set_raw_data_stream_sub_ (Some "raw_data_stream")
                    (RCLCPP_LOG INFO "Subscribing to raw data stream." s))))
    as (_ & _ & _ & _ & _ & -> & _).
  rewrite (initialize_channel_relay s Hmode) in Hp. exact Hp.
Qed.

Lemma msgCallback_relay_witness :
  deliver "raw_data_stream" (str2uint8 [x01; x02; x03]) (initialize os_tmp node_relay)
  = saveToFile [x01; x02; x03] (initialize os_tmp node_relay)
  ∧ raw_pub_ (deliver "raw_data_stream" (str2uint8 [x01; x02; x03])
                (initialize os_tmp node_relay)) = [].
Proof.
  destruct (msgCallback_relay (str2uint8 [x01; x02; x03]) node_relay)
    as (_ & _ & _ & _ & Hrelay).
  exact (Hrelay os_tmp eq_refl).
Defined.

End Dispatcher.

(** ** The log file *)

Section LogFile.

(** C6. In every Session whose file is open, the chunks routed to
    [saveToFile] all go to one file, the one named [file_name_]: it is the
    only file on the Session's disk, neither the name nor the stream changes,
    and after any further run of chunks its contents are exactly the
    concatenation, in arrival order, of every chunk routed since
    initialisation, with nothing added or altered. *)
Theorem Session_file_is_concatenation (os : OS) (routed chunks : list (list byte))
    (s : RawDataStreamPa) :
  Session os routed s →
  Std.of_is_open (file_handle_ s) = true →
  Std.of_path (file_handle_ s) = file_name_ s
  ∧ file_name_ (saveAllToFile chunks s) = file_name_ s
  ∧ file_handle_ (saveAllToFile chunks s) = file_handle_ s
  ∧ disk (saveAllToFile chunks s) = {[ file_name_ s := concat routed ++ concat chunks ]}.
Proof.
  intros Hsession Hopen.
  destruct (Session_invariant os routed s Hsession) as [[Hclosed _] | [Hh Hdisk]];
    [congruence|].
  destruct (saveAllToFile_open chunks s (concat routed)) as (Hh' & Hn' & Hd').
  - assumption.
  - now rewrite Hh.
  - rewrite Hh, Hdisk. simpl. apply lookup_singleton_eq.
  - assert (Hp : Std.of_path (file_handle_ s) = file_name_ s) by now rewrite Hh.
    rewrite Hd', Hp, Hdisk.
    repeat split; try assumption. apply insert_singleton_eq.
Qed.

Lemma Session_file_is_concatenation_witness :
  Session os_tmp [] (initialize os_tmp node_producer)
  ∧ disk (saveAllToFile [[x01; x02]; []; [x03]] (initialize os_tmp node_producer))
    = {[ "/tmp/raw/2024_03_07_0905.log" := [x01; x02; x03] ]}.
Proof.
  assert (Hsession : Session os_tmp [] (initialize os_tmp node_producer)).
  { apply (Session_wired os_tmp overrides_example false (node_example false));
      vm_compute; reflexivity. }
  split; [exact Hsession|].
  destruct (Session_file_is_concatenation os_tmp [] [[x01; x02]; []; [x03]]
              (initialize os_tmp node_producer) Hsession)
    as (_ & _ & _ & Hdisk).
  { vm_compute; reflexivity. }
  rewrite Hdisk. vm_compute. reflexivity.
Defined.

(** C7. When the local time at initialisation is 2024-03-07 09:05 and the
    configured directory is accepted, the log file is named by the
    normalised directory followed by [2024_03_07_0905] and [.log]: four
    digits of year, two each of month, day, hour and minute, zero padded,
    with underscores after the year, the month and the day and none between
    hour and minute. *)
Theorem initialize_file_name (os : OS) (s : RawDataStreamPa) (st_mode : Z) :
  file_dir_ s ≠ "" →
  os_stat os (file_dir_ s) = Some st_mode →
  Z.land st_mode Std.S_IFDIR = Std.S_IFDIR →
  os_localtime os = tm_2024_03_07_0905 →
  filename (os_localtime os) = "2024_03_07_0905" +:+ ".log"
  ∧ file_name_ (initialize os s)
    = with_separator (file_dir_ s) +:+ "2024_03_07_0905" +:+ ".log".
Proof.
  intros Hdir Hstat Hbits Htime.
  assert (Hname : filename (os_localtime os) = "2024_03_07_0905" +:+ ".log")
    by (rewrite Htime; reflexivity).
  split; [exact Hname|].
  unfold initialize.
  destruct (initialize_channel_frame s) as (_ & _ & Hd & _).
  rewrite <- Hd in Hdir, Hstat.
  destruct (initialize_file_accepted os (initialize_channel s) st_mode Hdir Hstat Hbits)
    as (_ & -> & _).
  now rewrite Hname, Hd.
Qed.

Lemma initialize_file_name_witness :
  file_name_ (initialize os_tmp node_producer) = "/tmp/raw/2024_03_07_0905.log".
Proof.
  destruct (initialize_file_name os_tmp node_producer 16877%Z) as [_ Hname];
    [discriminate | reflexivity | reflexivity | reflexivity |].
  rewrite Hname. reflexivity.
Defined.

(** C8 (where the source departs from the claim). [/dev/sda] exists and is a
    block device, not a directory, yet its mode passes the source's test
    [(st_mode & S_IFDIR) != S_IFDIR]: a relay configured with it logs no
    error. It goes on to open a file below the device, which fails silently,
    and logs that it is writing to that file; no file is open or created. *)
Theorem initialize_block_device_no_error :
  ∃ s0 s1,
    construct overrides_block_device true = Some s0
    ∧ getRosParams s0 = Some s1
    ∧ file_dir_ s1 = "/dev/sda"
    ∧ os_stat os_block_device "/dev/sda" = Some 24944%Z
    ∧ Std.S_ISDIR 24944 = false
    ∧ Z.land 24944 Std.S_IFDIR = Std.S_IFDIR
    ∧ rosout (initialize os_block_device s1)
      = [ (INFO, "Subscribing to raw data stream.");
          (INFO, "Logging raw data to file " +:+ dq
                 +:+ "/dev/sda/2024_03_07_0905.log" +:+ dq) ]
    ∧ Std.of_is_open (file_handle_ (initialize os_block_device s1)) = false
    ∧ disk (initialize os_block_device s1) = ∅.
Proof.
  eexists. eexists.
  split; [vm_compute; reflexivity|].
  split; [vm_compute; reflexivity|].
  repeat split; vm_compute; reflexivity.
Qed.

(** The source's test by file type: besides directories, block devices and
    sockets carry the [S_IFDIR] bit; regular files, character devices and
    FIFOs do not. *)
Lemma S_IFDIR_bit_by_file_type :
  Forall (λ t, Z.land t Std.S_IFDIR = Std.S_IFDIR)
    [Std.S_IFDIR; Std.S_IFBLK; Std.S_IFSOCK]
  ∧ Forall (λ t, Z.land t Std.S_IFDIR ≠ Std.S_IFDIR)
      [Std.S_IFREG; Std.S_IFCHR; Std.S_IFIFO]
  ∧ Forall (λ t, Std.S_ISDIR t = false)
      [Std.S_IFBLK; Std.S_IFSOCK; Std.S_IFREG; Std.S_IFCHR; Std.S_IFIFO].
Proof. repeat split; repeat constructor; vm_compute; congruence. Qed.

(** The part of directory validation the source does get right: a path that
    [::stat] cannot find, or whose mode lacks the [S_IFDIR] bits (a regular
    file, a character device, a FIFO), costs one error line; the stream, the
    files and the channel side are as the channel side of [initialize] left
    them. *)
Lemma initialize_rejected_directory (os : OS) (s : RawDataStreamPa) :
  file_dir_ s ≠ "" →
  (os_stat os (file_dir_ s) = None
   ∨ ∃ st_mode, os_stat os (file_dir_ s) = Some st_mode
                ∧ Z.land st_mode Std.S_IFDIR ≠ Std.S_IFDIR) →
  ∃ text, initialize os s = RCLCPP_LOG ERROR text (initialize_channel s).
Proof.
  intros Hdir Hstat. unfold initialize.
  destruct (initialize_channel_frame s) as (_ & _ & Hd & _).
  apply initialize_file_rejected; now rewrite Hd.
Qed.

End LogFile.

(** ** The shape of the file name *)

Section FileName.

Lemma string_app_assoc (a b c : string) : (a +:+ b) +:+ c = a +:+ b +:+ c.
Proof.
  induction a as [|x a IH]; [reflexivity|].
  change (String x ((a +:+ b) +:+ c) = String x (a +:+ b +:+ c)). now rewrite IH.
Qed.

Lemma string_app_length (a b : string) :
  String.length (a +:+ b) = String.length a + String.length b.
Proof.
  induction a as [|x a IH]; [reflexivity|].
  change (S (String.length (a +:+ b)) = S (String.length a + String.length b)).
  now rewrite IH.
Qed.

Lemma string_app_inj_length (a b c d : string) :
  String.length a = String.length c → a +:+ b = c +:+ d → a = c ∧ b = d.
Proof.
  revert c. induction a as [|x a IH]; intros [|y c] Hlen Heq; try discriminate.
  - auto.
  - change (String x (a +:+ b) = String y (c +:+ d)) in Heq.
    injection Heq as -> Heq. injection Hlen as Hlen.
    destruct (IH c Hlen Heq) as [-> ->]. auto.
Qed.

Lemma fill_string_length (n : nat) (c : ascii) :
  String.length (Std.fill_string n c) = n.
Proof. induction n as [|n IH]; simpl; [reflexivity | now rewrite IH]. Qed.

(** The width is a minimum: a field is never cut. *)
Lemma field_length (w : nat) (z : Z) :
  String.length (field w z) = w `max` String.length (Std.to_string z).
Proof. unfold field. rewrite string_app_length, fill_string_length. lia. Qed.

(** One zero-filled number, and one plain text, written to a stream. *)
Lemma put_int_field (w : nat) (z : Z) (s : string) (n : nat) (c : ascii) :
  Std.put_int z (Std.fill "0" (Std.width w (Std.Build_stringstream s n c)))
  = Std.Build_stringstream (s +:+ field w z) 0 "0".
Proof. reflexivity. Qed.

Lemma put_plain (t s : string) (n : nat) (c : ascii) :
  Std.put t (Std.width 0 (Std.Build_stringstream s n c))
  = Std.Build_stringstream (s +:+ t) 0 c.
Proof. reflexivity. Qed.

(** The file name, field by field. *)
Lemma filename_eq (t : Std.tm) :
  filename t
  = field 4 (Std.tm_year t + 1900) +:+ "_" +:+ field 2 (Std.tm_mon t + 1) +:+ "_"
    +:+ field 2 (Std.tm_mday t) +:+ "_" +:+ field 2 (Std.tm_hour t)
    +:+ field 2 (Std.tm_min t) +:+ ".log".
Proof.
  unfold filename, Std.ss_new, Std.put_char. cbv zeta.
  repeat (rewrite put_int_field || rewrite put_plain).
  cbn [Std.ss_str].
  generalize (field 4 (Std.tm_year t + 1900)) (field 2 (Std.tm_mon t + 1))
    (field 2 (Std.tm_mday t)) (field 2 (Std.tm_hour t)) (field 2 (Std.tm_min t)).
  intros a b c d e. rewrite !string_app_assoc. reflexivity.
Qed.

Lemma fields_exact_spec (w bound : nat) (z : Z) :
  fields_exact w bound = true →
  (0 ≤ z < Z.of_nat bound)%Z →
  field_value (field w z) = Some z ∧ String.length (field w z) = w.
Proof.
  unfold fields_exact. intros Hall Hz.
  rewrite forallb_forall in Hall.
  assert (Hin : In (Z.to_nat z) (seq 0 bound)) by (apply in_seq; lia).
  apply Hall in Hin. rewrite Z2Nat.id in Hin by lia.
  apply andb_prop in Hin as [Hv Hl].
  apply bool_decide_eq_true in Hv. apply Nat.eqb_eq in Hl. auto.
Qed.

Lemma fields_exact_2 : fields_exact 2 100 = true.
Proof. vm_compute. reflexivity. Qed.

Lemma fields_exact_4 : fields_exact 4 10000 = true.
Proof. vm_compute. reflexivity. Qed.

Lemma field4_exact (z : Z) :
  (0 ≤ z ≤ 9999)%Z →
  field_value (field 4 z) = Some z ∧ String.length (field 4 z) = 4.
Proof.
  intros Hz. apply (fields_exact_spec 4 10000); [apply fields_exact_4|].
  replace (Z.of_nat 10000) with 10000%Z by (vm_compute; reflexivity). lia.
Qed.

Lemma field2_exact (z : Z) :
  (0 ≤ z ≤ 99)%Z →
  field_value (field 2 z) = Some z ∧ String.length (field 2 z) = 2.
Proof.
  intros Hz. apply (fields_exact_spec 2 100); [apply fields_exact_2 | lia].
Qed.

Lemma field4_inj (y z : Z) :
  (0 ≤ y ≤ 9999)%Z → (0 ≤ z ≤ 9999)%Z → field 4 y = field 4 z → y = z.
Proof.
  intros Hy Hz Heq.
  destruct (field4_exact y Hy) as [Hvy _]. destruct (field4_exact z Hz) as [Hvz _].
  rewrite Heq in Hvy. congruence.
Qed.

Lemma field2_inj (y z : Z) :
  (0 ≤ y ≤ 99)%Z → (0 ≤ z ≤ 99)%Z → field 2 y = field 2 z → y = z.
Proof.
  intros Hy Hz Heq.
  destruct (field2_exact y Hy) as [Hvy _]. destruct (field2_exact z Hz) as [Hvz _].
  rewrite Heq in Hvy. congruence.
Qed.

(** The five fields of a calendar time have their nominal widths. *)
Lemma calendar_field_lengths (t : Std.tm) :
  calendar t →
  String.length (field 4 (Std.tm_year t + 1900)) = 4
  ∧ String.length (field 2 (Std.tm_mon t + 1)) = 2
  ∧ String.length (field 2 (Std.tm_mday t)) = 2
  ∧ String.length (field 2 (Std.tm_hour t)) = 2
  ∧ String.length (field 2 (Std.tm_min t)) = 2.
Proof.
  intros (Hy & Hm & Hd & Hh & Hmin).
  split; [apply field4_exact; lia|].
  repeat split; apply field2_exact; lia.
Qed.

(** X1. The file name is the year in a zero-filled field of four, then the
    month (counted from 1), the day, the hour and the minute in zero-filled
    fields of two, with an underscore after the year, the month and the day,
    and [.log] at the end. A field is never cut, so the name has at least 19
    characters, and exactly 19 for every calendar time with a year from 0 to
    9999. *)
Theorem filename_shape (t : Std.tm) :
  filename t
  = field 4 (Std.tm_year t + 1900) +:+ "_" +:+ field 2 (Std.tm_mon t + 1) +:+ "_"
    +:+ field 2 (Std.tm_mday t) +:+ "_" +:+ field 2 (Std.tm_hour t)
    +:+ field 2 (Std.tm_min t) +:+ ".log"
  ∧ 19 ≤ String.length (filename t)
  ∧ (calendar t → String.length (filename t) = 19).
Proof.
  split; [apply filename_eq|].
  rewrite filename_eq, !string_app_length, !field_length. simpl String.length.
  split; [lia|].
  intros Hcal. apply calendar_field_lengths in Hcal as (Hy & Hm & Hd & Hh & Hmin).
  rewrite field_length in Hy, Hm, Hd, Hh, Hmin. lia.
Qed.

Lemma filename_shape_witness :
  String.length (filename tm_1999_12_31_2359) = 19.
Proof.
  destruct (filename_shape tm_1999_12_31_2359) as (_ & _ & Hlen).
  apply Hlen. unfold calendar. simpl. lia.
Defined.

(** X2. Two calendar times (years 0 to 9999) that differ in the year, the
    month, the day, the hour or the minute give different file names: the
    name determines the time to the minute. *)
Theorem filename_injective (t1 t2 : Std.tm) :
  calendar t1 → calendar t2 → filename t1 = filename t2 → t1 = t2.
Proof.
  intros Hc1 Hc2 Heq. rewrite !filename_eq in Heq.
  destruct (calendar_field_lengths t1 Hc1) as (Ly1 & Lm1 & Ld1 & Lh1 & Ln1).
  destruct (calendar_field_lengths t2 Hc2) as (Ly2 & Lm2 & Ld2 & Lh2 & Ln2).
  destruct Hc1 as (Hy1 & Hm1 & Hd1 & Hh1 & Hn1).
  destruct Hc2 as (Hy2 & Hm2 & Hd2 & Hh2 & Hn2).
  apply string_app_inj_length in Heq as [Ey Heq]; [|congruence].
  apply (string_app_inj_length "_" _ "_") in Heq as [_ Heq]; [|reflexivity].
  apply string_app_inj_length in Heq as [Em Heq]; [|congruence].
  apply (string_app_inj_length "_" _ "_") in Heq as [_ Heq]; [|reflexivity].
  apply string_app_inj_length in Heq as [Ed Heq]; [|congruence].
  apply (string_app_inj_length "_" _ "_") in Heq as [_ Heq]; [|reflexivity].
  apply string_app_inj_length in Heq as [Eh Heq]; [|congruence].
  apply string_app_inj_length in Heq as [En _]; [|congruence].
  apply field4_inj in Ey; [|lia..].
  apply field2_inj in Em; [|lia..].
  apply field2_inj in Ed; [|lia..].
  apply field2_inj in Eh; [|lia..].
  apply field2_inj in En; [|lia..].
  destruct t1, t2; simpl in *. f_equal; lia.
Qed.

Lemma filename_injective_witness :
  filename tm_2024_03_07_0905 ≠ filename tm_1999_12_31_2359.
Proof.
  intros Heq.
  apply (filename_injective tm_2024_03_07_0905 tm_1999_12_31_2359) in Heq.
  - discriminate Heq.
  - unfold calendar. simpl. lia.
  - unfold calendar. simpl. lia.
Defined.

End FileName.

(** ** Runs of the dispatcher *)

Section Runs.

Lemma ubloxCallback_in_bounds (data : list byte) (size : nat) (s : RawDataStreamPa) :
  size ≤ length data →
  ubloxCallback data size s
  = Some (saveToFile (take size data)
            (if flag_publish_ s then publishMsg (take size data) s else s)).
Proof.
  intros Hle. unfold ubloxCallback. now rewrite string_of_buffer_Some.
Qed.

Lemma deliver_routed (topic : string) (msg : Msg.UInt8MultiArray) (s : RawDataStreamPa) :
  deliver topic msg s
  = match routed (raw_data_stream_sub_ s) (Delivery topic msg) with
    | Some chunk => saveToFile chunk s
    | None => s
    end.
Proof.
  unfold deliver, routed, msgCallback.
  destruct (bool_decide (raw_data_stream_sub_ s = Some topic)); [|reflexivity].
  now rewrite msg_str_data.
Qed.

(** One event: what stays, what is published, what is written. *)
Lemma step_effect (chunks : list (list byte)) (e : Event) (s s' : RawDataStreamPa) :
  step e s = Some s' →
  (flag_publish_ s' = flag_publish_ s
   ∧ is_ros_subscriber_ s' = is_ros_subscriber_ s
   ∧ file_dir_ s' = file_dir_ s
   ∧ file_name_ s' = file_name_ s
   ∧ file_handle_ s' = file_handle_ s
   ∧ raw_data_stream_sub_ s' = raw_data_stream_sub_ s
   ∧ parameters s' = parameters s
   ∧ rosout s' = rosout s)
  ∧ raw_pub_ s'
    = raw_pub_ s ++ (if flag_publish_ s then str2uint8 <$> option_list (captured e) else [])
  ∧ (stream_invariant chunks s →
     stream_invariant (chunks ++ option_list (routed (raw_data_stream_sub_ s) e)) s').
Proof.
  destruct e as [data size | topic msg]; simpl; intros Hstep.
  - apply ubloxCallback_Some in Hstep as [_ ->].
    set (s1 := if flag_publish_ s then publishMsg (take size data) s else s).
    assert (Hs1 : (flag_publish_ s1 = flag_publish_ s
                   ∧ is_ros_subscriber_ s1 = is_ros_subscriber_ s
                   ∧ file_dir_ s1 = file_dir_ s
                   ∧ file_name_ s1 = file_name_ s
                   ∧ file_handle_ s1 = file_handle_ s
                   ∧ raw_data_stream_sub_ s1 = raw_data_stream_sub_ s
                   ∧ parameters s1 = parameters s
                   ∧ rosout s1 = rosout s)
                  ∧ raw_pub_ s1
                    = raw_pub_ s ++ (if flag_publish_ s
                                     then [str2uint8 (take size data)] else [])
                  ∧ (stream_invariant chunks s → stream_invariant chunks s1)).
    { subst s1. destruct (flag_publish_ s) eqn:Hf; simpl;
        [|rewrite app_nil_r]; repeat split; auto. }
    destruct Hs1 as (Hframe & Hpub & Hinv).
    destruct (saveToFile_frame (take size data) s1)
      as (-> & -> & -> & -> & -> & -> & -> & -> & ->).
    split; [exact Hframe|]. split; [exact Hpub|].
    intros H. apply saveToFile_invariant. auto.
  - injection Hstep as <-. rewrite deliver_routed. simpl.
    destruct (bool_decide (raw_data_stream_sub_ s = Some topic)); simpl.
    + destruct (saveToFile_frame (Msg.data msg) s)
        as (-> & -> & -> & -> & -> & -> & -> & -> & ->).
      split; [repeat split; reflexivity|].
      split; [destruct (flag_publish_ s); now rewrite app_nil_r|].
      apply saveToFile_invariant.
    + split; [repeat split; reflexivity|].
      split; [destruct (flag_publish_ s); now rewrite app_nil_r|].
      now rewrite app_nil_r.
Qed.

(** A run: the same three facts, event after event. *)
Lemma run_effect (es : list Event) (chunks : list (list byte)) (s s' : RawDataStreamPa) :
  run es s = Some s' →
  (flag_publish_ s' = flag_publish_ s
   ∧ is_ros_subscriber_ s' = is_ros_subscriber_ s
   ∧ file_dir_ s' = file_dir_ s
   ∧ file_name_ s' = file_name_ s
   ∧ file_handle_ s' = file_handle_ s
   ∧ raw_data_stream_sub_ s' = raw_data_stream_sub_ s
   ∧ parameters s' = parameters s
   ∧ rosout s' = rosout s)
  ∧ raw_pub_ s'
    = raw_pub_ s ++ (if flag_publish_ s then str2uint8 <$> omap captured es else [])
  ∧ (stream_invariant chunks s →
     stream_invariant (chunks ++ omap (routed (raw_data_stream_sub_ s)) es) s').
Proof.
  revert chunks s. induction es as [|e es IH]; intros chunks s Hrun; simpl in Hrun.
  - injection Hrun as <-. split; [repeat split; reflexivity|].
    split; [destruct (flag_publish_ s); now rewrite app_nil_r|].
    simpl. now rewrite app_nil_r.
  - destruct (step e s) as [s1|] eqn:Hstep; [|discriminate]. simpl in Hrun.
    destruct (step_effect chunks e s s1 Hstep)
      as ((Hf & Hm & Hd & Hn & Hh & Hs & Hp & Hl) & Hpub & Hinv).
    destruct (IH (chunks ++ option_list (routed (raw_data_stream_sub_ s) e)) s1 Hrun)
      as ((Hf' & Hm' & Hd' & Hn' & Hh' & Hs' & Hp' & Hl') & Hpub' & Hinv').
    split; [repeat split; congruence|].
    split.
    + rewrite Hpub', Hpub, Hf. destruct (flag_publish_ s); [|now rewrite !app_nil_r].
      rewrite <- app_assoc. f_equal. simpl.
      destruct e; simpl; reflexivity.
    + intros H. specialize (Hinv' (Hinv H)). rewrite Hs in Hinv'.
      rewrite <- app_assoc in Hinv'.
      replace (omap (routed (raw_data_stream_sub_ s)) (e :: es))
        with (option_list (routed (raw_data_stream_sub_ s) e)
              ++ omap (routed (raw_data_stream_sub_ s)) es); [exact Hinv'|].
      simpl. destruct (routed (raw_data_stream_sub_ s) e); reflexivity.
Qed.

(** A run goes through exactly when the driver keeps its side of the
    contract at every device event. *)
Lemma run_in_bounds (es : list Event) (s : RawDataStreamPa) :
  Forall in_bounds es → is_Some (run es s).
Proof.
  intros Hall. revert s.
  induction Hall as [|e es He _ IH]; intros s; simpl; [eauto|].
  destruct e as [data size | topic msg]; simpl in *.
  - rewrite ubloxCallback_in_bounds by assumption. simpl. apply IH.
  - apply IH.
Qed.

(** Without a subscription only device chunks reach the file. *)
Lemma routed_unsubscribed (es : list Event) :
  omap (routed None) es = omap captured es.
Proof. induction es as [|[data size | topic msg] es IH]; simpl; now rewrite ?IH. Qed.

(** A subscriber fed with deliveries on its topic routes their data. *)
Lemma routed_deliveries (topic : string) (msgs : list Msg.UInt8MultiArray) :
  omap (routed (Some topic)) (Delivery topic <$> msgs) = Msg.data <$> msgs
  ∧ omap captured (Delivery topic <$> msgs) = []
  ∧ Forall in_bounds (Delivery topic <$> msgs).
Proof.
  induction msgs as [|m msgs (IH1 & IH2 & IH3)].
  - repeat split. constructor.
  - rewrite !fmap_cons. cbn [omap list_omap routed captured].
    rewrite bool_decide_eq_true_2 by reflexivity.
    change (list_omap ?f ?l) with (omap f l).
    rewrite IH1, IH2.
    repeat split. constructor; [exact I | exact IH3].
Qed.

Lemma data_str2uint8 (chunks : list (list byte)) :
  Msg.data <$> (str2uint8 <$> chunks) = chunks.
Proof.
  induction chunks as [|c chunks IH]; [reflexivity|].
  rewrite !fmap_cons, IH, str2uint8_eq. reflexivity.
Qed.

(** The node as [initialize] leaves it after construction and
    [getRosParams]. *)
Lemma initialize_wired (os : OS) (overrides : gmap string ParameterValue) (b : bool)
    (s0 s1 : RawDataStreamPa) :
  construct overrides b = Some s0 →
  getRosParams s0 = Some s1 →
  is_ros_subscriber_ (initialize os s1) = b
  ∧ flag_publish_ (initialize os s1) = (if b then false else flag_publish_ s1)
  ∧ raw_data_stream_sub_ (initialize os s1)
    = (if b then Some "raw_data_stream" else None)
  ∧ raw_pub_ (initialize os s1)
    = (if b then [] else if flag_publish_ s1 then [str2uint8 []] else [])
  ∧ stream_invariant [] (initialize os s1).
Proof.
  intros Hc Hg.
  assert (Hinv : stream_invariant [] (initialize os s1)).
  { apply (Session_invariant os). now apply (Session_wired os overrides b s0 s1). }
  apply construct_Some in Hc as (Hpub & Hmode & _ & _ & _ & Hp & Hsub & _).
  assert (Hflag : is_ros_subscriber_ s0 = true → flag_publish_ s1 = false).
  { intros Hrelay. unfold getRosParams in Hg. rewrite Hrelay in Hg.
    destruct (get_string _ _); [|discriminate]. simpl in Hg. injection Hg as <-.
    exact Hpub. }
  apply getRosParams_frame in Hg as (Hmode1 & _ & _ & Hp1 & Hsub1 & _).
  rewrite Hmode in Hmode1, Hflag. rewrite Hp in Hp1. rewrite Hsub in Hsub1.
  revert Hinv. generalize (stream_invariant [] (initialize os s1)). intros P HP.
  unfold initialize.
  destruct (initialize_file_frame os (initialize_channel s1))
    as (-> & -> & -> & -> & _).
  unfold initialize_channel. rewrite Hmode1.
  destruct b; simpl.
  - rewrite Hp1. rewrite (Hflag eq_refl). repeat split; try reflexivity; assumption.
  - destruct (flag_publish_ s1) eqn:Hf; simpl; rewrite ?Hf, Hp1, Hsub1;
      repeat split; try reflexivity; assumption.
Qed.

(** With the stream closed and the publish flag off, events do nothing. *)
Lemma run_idle (es : list Event) (s : RawDataStreamPa) :
  Std.of_is_open (file_handle_ s) = false →
  flag_publish_ s = false →
  Forall in_bounds es →
  run es s = Some s.
Proof.
  intros Hclosed Hflag Hall.
  induction Hall as [|e es He _ IH]; simpl; [reflexivity|].
  assert (Hstep : step e s = Some s).
  { destruct e as [data size | topic msg]; simpl in *.
    - rewrite ubloxCallback_in_bounds by assumption.
      rewrite Hflag. now rewrite saveToFile_closed.
    - unfold deliver, msgCallback.
      destruct (bool_decide _); [|reflexivity]. now rewrite saveToFile_closed. }
  rewrite Hstep. simpl. exact IH.
Qed.

(** In a Session the empty chunk changes no file. *)
Lemma saveToFile_empty (chunks : list (list byte)) (s : RawDataStreamPa) :
  stream_invariant chunks s → saveToFile [] s = s.
Proof.
  intros [[Hclosed _] | [Hh Hdisk]].
  - now apply saveToFile_closed.
  - rewrite saveToFile_open by (rewrite Hh; reflexivity).
    replace (<[Std.of_path (file_handle_ s) :=
                 default [] (disk s !! Std.of_path (file_handle_ s)) ++ []]> (disk s))
      with (disk s).
    + destruct s. reflexivity.
    + rewrite Hh. simpl. rewrite Hdisk, lookup_singleton_eq. simpl.
      now rewrite app_nil_r, insert_singleton_eq.
Qed.

(** X3. From initialisation on, whatever the device and the executor bring,
    the callbacks keep the configuration and log nothing: after any run the
    publish flag, the mode, the directory, the file name, the state of the
    stream, the subscription, the parameters and the logger's output are
    what they were. The run goes through whenever every device buffer holds
    the bytes its size announces. *)
Theorem run_preserves_configuration (es : list Event) (s : RawDataStreamPa) :
  Forall in_bounds es →
  ∃ s', run es s = Some s'
    ∧ flag_publish_ s' = flag_publish_ s
    ∧ is_ros_subscriber_ s' = is_ros_subscriber_ s
    ∧ file_dir_ s' = file_dir_ s
    ∧ file_name_ s' = file_name_ s
    ∧ file_handle_ s' = file_handle_ s
    ∧ raw_data_stream_sub_ s' = raw_data_stream_sub_ s
    ∧ parameters s' = parameters s
    ∧ rosout s' = rosout s.
Proof.
  intros Hall. destruct (run_in_bounds es s Hall) as [s' Hrun].
  exists s'. split; [exact Hrun|].
  now destruct (run_effect es [] s s' Hrun) as [Hframe _].
Qed.

Lemma run_preserves_configuration_witness :
  ∃ s', run events_example (initialize os_tmp node_producer) = Some s'
    ∧ file_name_ s' = "/tmp/raw/2024_03_07_0905.log"
    ∧ rosout s' = rosout (initialize os_tmp node_producer).
Proof.
  destruct (run_preserves_configuration events_example (initialize os_tmp node_producer))
    as (s' & Hrun & _ & _ & _ & Hname & _ & _ & _ & Hlog).
  { unfold events_example. repeat constructor; simpl; lia. }
  exists s'. split; [exact Hrun|]. split; [|exact Hlog].
  rewrite Hname. reflexivity.
Defined.

(** X4. A producer with the publish flag set sends both sinks the same
    bytes: after initialisation and any run, the publisher has received the
    empty readiness message followed by one message per device chunk, in
    order, and the log file, when it is open, holds exactly the data of the
    published messages, concatenated. Messages delivered by the executor
    reach neither sink. *)
Theorem producer_sinks_agree (os : OS) (overrides : gmap string ParameterValue)
    (s0 s1 : RawDataStreamPa) (es : list Event) :
  construct overrides false = Some s0 →
  getRosParams s0 = Some s1 →
  flag_publish_ s1 = true →
  Forall in_bounds es →
  ∃ s', run es (initialize os s1) = Some s'
    ∧ raw_pub_ s' = str2uint8 [] :: (str2uint8 <$> omap captured es)
    ∧ (Std.of_is_open (file_handle_ s') = true →
         disk s' = {[ file_name_ s' := concat (Msg.data <$> raw_pub_ s') ]})
    ∧ (Std.of_is_open (file_handle_ s') = false → disk s' = ∅).
Proof.
  intros Hc Hg Hflag Hall.
  destruct (initialize_wired os overrides false s0 s1 Hc Hg)
    as (_ & Hf & Hs & Hp & Hinv).
  destruct (run_in_bounds es (initialize os s1) Hall) as [s' Hrun].
  destruct (run_effect es [] (initialize os s1) s' Hrun) as (_ & Hpub & Hinv').
  specialize (Hinv' Hinv).
  rewrite Hs, routed_unsubscribed in Hinv'. simpl in Hinv'.
  rewrite Hp, Hf, Hflag in Hpub. simpl in Hpub.
  exists s'. split; [exact Hrun|]. split; [exact Hpub|].
  rewrite Hpub, fmap_cons, data_str2uint8, str2uint8_eq. simpl.
  destruct Hinv' as [[Hclosed Hdisk] | [Hh Hdisk]]; split; intros Ho;
    try assumption; try congruence.
  rewrite Hh in Ho. discriminate Ho.
Qed.

Lemma producer_sinks_agree_witness :
  ∃ s', run events_example (initialize os_tmp node_producer) = Some s'
    ∧ raw_pub_ s' = str2uint8 <$> [[]; [x01; x02; x03]; []; [x05]]
    ∧ disk s' = {[ "/tmp/raw/2024_03_07_0905.log" := [x01; x02; x03; x05] ]}.
Proof.
  destruct (producer_sinks_agree os_tmp overrides_example (node_example false)
              node_producer events_example)
    as (s' & Hrun & Hpub & Hopen & _).
  - vm_compute. reflexivity.
  - vm_compute. reflexivity.
  - reflexivity.
  - unfold events_example. repeat constructor; simpl; lia.
  - exists s'. split; [exact Hrun|]. split; [exact Hpub|].
    destruct (run_effect events_example [] _ s' Hrun)
      as ((_ & _ & _ & Hn & Hh & _) & _).
    rewrite Hopen by (rewrite Hh; vm_compute; reflexivity).
    rewrite Hn, Hpub. vm_compute. reflexivity.
Defined.

(** X5. A relay that is delivered, on [raw_data_stream] and in order,
    everything such a producer has published writes to its own log file the
    very bytes the device gave the producer, as the producer's log file
    holds them; the relay publishes nothing. *)
Theorem relay_reproduces_log (osp osr : OS)
    (overridesp overridesr : gmap string ParameterValue)
    (p0 p1 r0 r1 : RawDataStreamPa) (es : list Event) :
  construct overridesp false = Some p0 →
  getRosParams p0 = Some p1 →
  flag_publish_ p1 = true →
  Forall in_bounds es →
  construct overridesr true = Some r0 →
  getRosParams r0 = Some r1 →
  ∃ p' r',
    run es (initialize osp p1) = Some p'
    ∧ run (Delivery "raw_data_stream" <$> raw_pub_ p') (initialize osr r1) = Some r'
    ∧ raw_pub_ r' = []
    ∧ (Std.of_is_open (file_handle_ r') = true →
         disk r' = {[ file_name_ r' := concat (omap captured es) ]})
    ∧ (Std.of_is_open (file_handle_ p') = true →
       Std.of_is_open (file_handle_ r') = true →
         disk r' !! file_name_ r' = disk p' !! file_name_ p').
Proof.
  intros Hcp Hgp Hflag Hall Hcr Hgr.
  destruct (initialize_wired osp overridesp false p0 p1 Hcp Hgp)
    as (_ & Hfp & Hsp & Hpp & Hinvp).
  destruct (run_in_bounds es (initialize osp p1) Hall) as [p' Hrunp].
  destruct (run_effect es [] (initialize osp p1) p' Hrunp) as (_ & Hpubp & Hinvp').
  specialize (Hinvp' Hinvp).
  rewrite Hsp, routed_unsubscribed in Hinvp'. simpl in Hinvp'.
  rewrite Hpp, Hfp, Hflag in Hpubp. simpl in Hpubp.
  destruct (initialize_wired osr overridesr true r0 r1 Hcr Hgr)
    as (_ & Hfr & Hsr & Hpr & Hinvr).
  destruct (routed_deliveries "raw_data_stream" (raw_pub_ p')) as (Hrouted & Hcapt & Hbounds).
  destruct (run_in_bounds _ (initialize osr r1) Hbounds) as [r' Hrunr].
  destruct (run_effect _ [] (initialize osr r1) r' Hrunr) as (_ & Hpubr & Hinvr').
  specialize (Hinvr' Hinvr).
  rewrite Hsr, Hrouted in Hinvr'. simpl in Hinvr'.
  rewrite Hpubp, fmap_cons, data_str2uint8, str2uint8_eq in Hinvr'. simpl in Hinvr'.
  rewrite Hpr, Hfr in Hpubr. simpl in Hpubr.
  exists p', r'. split; [exact Hrunp|]. split; [exact Hrunr|]. split; [exact Hpubr|].
  assert (Hr : Std.of_is_open (file_handle_ r') = true →
               disk r' = {[ file_name_ r' := concat (omap captured es) ]}).
  { intros Ho. destruct Hinvr' as [[Hclosed _] | [_ Hdisk]]; [congruence | exact Hdisk]. }
  split; [exact Hr|].
  intros Hop Hor. rewrite (Hr Hor), lookup_singleton_eq.
  destruct Hinvp' as [[Hclosed _] | [_ Hdisk]]; [congruence|].
  now rewrite Hdisk, lookup_singleton_eq.
Qed.

Lemma relay_reproduces_log_witness :
  ∃ p' r',
    run events_example (initialize os_tmp node_producer) = Some p'
    ∧ run (Delivery "raw_data_stream" <$> raw_pub_ p') (initialize os_tmp node_relay)
      = Some r'
    ∧ raw_pub_ r' = []
    ∧ disk r' = {[ "/tmp/relay/2024_03_07_0905.log" := [x01; x02; x03; x05] ]}.
Proof.
  destruct (relay_reproduces_log os_tmp os_tmp overrides_example overrides_example
              (node_example false) node_producer (node_example true) node_relay
              events_example)
    as (p' & r' & Hrunp & Hrunr & Hpub & Hopen & _).
  - vm_compute. reflexivity.
  - vm_compute. reflexivity.
  - reflexivity.
  - unfold events_example. repeat constructor; simpl; lia.
  - vm_compute. reflexivity.
  - vm_compute. reflexivity.
  - exists p', r'. split; [exact Hrunp|]. split; [exact Hrunr|]. split; [exact Hpub|].
    destruct (run_effect _ [] _ r' Hrunr) as ((_ & _ & _ & Hn & Hh & _) & _).
    rewrite Hopen by (rewrite Hh; vm_compute; reflexivity).
    rewrite Hn. vm_compute. reflexivity.
Defined.

(** X6. A node that reports itself as not enabled after [getRosParams] never
    publishes and never writes: initialisation opens no file and publishes
    nothing (a producer is left exactly as it was, a relay only subscribes),
    and every run of callbacks returns the node unchanged. *)
Theorem disabled_node_does_nothing (os : OS) (overrides : gmap string ParameterValue)
    (b : bool) (s0 s1 : RawDataStreamPa) (es : list Event) :
  construct overrides b = Some s0 →
  getRosParams s0 = Some s1 →
  isEnabled s1 = false →
  Forall in_bounds es →
  run es (initialize os s1) = Some (initialize os s1)
  ∧ raw_pub_ (initialize os s1) = []
  ∧ disk (initialize os s1) = ∅
  ∧ Std.of_is_open (file_handle_ (initialize os s1)) = false
  ∧ (b = false → initialize os s1 = s1).
Proof.
  intros Hc Hg Hen Hall.
  destruct (initialize_wired os overrides b s0 s1 Hc Hg) as (Hm & Hf & _ & Hp & Hinv).
  apply construct_Some in Hc as (_ & Hmode & _ & _ & Hh & _).
  apply getRosParams_frame in Hg as (Hmode1 & _ & Hh1 & _).
  rewrite Hmode in Hmode1. rewrite Hh in Hh1.
  assert (Hcfg : file_dir_ s1 = "" ∧ (b = false → flag_publish_ s1 = false)).
  { unfold isEnabled in Hen. rewrite Hmode1 in Hen. destruct b.
    - apply negb_false_iff, str_empty_spec in Hen. split; [assumption | discriminate].
    - apply orb_false_iff in Hen as [Hflag Hdir].
      apply negb_false_iff, str_empty_spec in Hdir. auto. }
  destruct Hcfg as [Hdir Hflag].
  assert (Hinit : initialize os s1 = initialize_channel s1).
  { unfold initialize. apply initialize_file_disabled.
    destruct (initialize_channel_frame s1) as (_ & _ & -> & _). exact Hdir. }
  assert (Hclosed : Std.of_is_open (file_handle_ (initialize os s1)) = false).
  { rewrite Hinit. destruct (initialize_channel_frame s1) as (_ & _ & _ & _ & -> & _).
    now rewrite Hh1. }
  assert (Hoff : flag_publish_ (initialize os s1) = false).
  { rewrite Hf. destruct b; [reflexivity | auto]. }
  split; [now apply run_idle|].
  split; [rewrite Hp; destruct b; [reflexivity | now rewrite Hflag]|].
  split; [destruct Hinv as [[_ Hdisk] | [Hopen _]];
          [exact Hdisk | rewrite Hopen in Hclosed; discriminate]|].
  split; [exact Hclosed|].
  intros ->. rewrite Hinit. unfold initialize_channel.
  now rewrite Hmode1, (Hflag eq_refl).
Qed.

Lemma disabled_node_does_nothing_witness :
  run events_example (initialize os_tmp (node_default false))
  = Some (node_default false).
Proof.
  destruct (disabled_node_does_nothing os_tmp ∅ false (node_default false)
              (node_default false) events_example)
    as (Hrun & _ & _ & _ & Hsame).
  - vm_compute. reflexivity.
  - vm_compute. reflexivity.
  - reflexivity.
  - unfold events_example. repeat constructor; simpl; lia.
  - rewrite (Hsame eq_refl) in Hrun. exact Hrun.
Defined.

(** X7. The empty chunk. In a Session, [ubloxCallback] with size 0 reads
    nothing from the buffer and leaves every file as it is, but with the
    publish flag set it still publishes a message, the same empty message
    that announced readiness at initialisation; [msgCallback] on a message
    without data returns the node unchanged. *)
Theorem empty_chunk (os : OS) (chunks : list (list byte)) (s : RawDataStreamPa)
    (data : list byte) :
  Session os chunks s →
  ubloxCallback data 0 s = Some (if flag_publish_ s then publishMsg [] s else s)
  ∧ (∀ msg, Msg.data msg = [] → msgCallback msg s = s).
Proof.
  intros Hsession. apply Session_invariant in Hsession as Hinv.
  split.
  - rewrite ubloxCallback_in_bounds by lia. rewrite take_0. f_equal.
    apply (saveToFile_empty chunks). destruct (flag_publish_ s); exact Hinv.
  - intros msg Hdata. unfold msgCallback. rewrite msg_str_data, Hdata.
    now apply (saveToFile_empty chunks).
Qed.

Lemma empty_chunk_witness :
  ubloxCallback [x01] 0 (initialize os_tmp node_producer)
  = Some (publishMsg [] (initialize os_tmp node_producer)).
Proof.
  assert (Hsession : Session os_tmp [] (initialize os_tmp node_producer)).
  { apply (Session_wired os_tmp overrides_example false (node_example false));
      vm_compute; reflexivity. }
  exact (proj1 (empty_chunk os_tmp [] _ [x01] Hsession)).
Defined.

End Runs.

(** ** Initialisation at the edges *)

Section InitialisationEdges.

Lemma back_app_separator (d : string) : Std.back (d +:+ "/") = Some "/"%char.
Proof.
  induction d as [|c d IH]; [reflexivity|].
  change (Std.back (String c (d +:+ "/")) = Some "/"%char).
  destruct d as [|c' d]; [reflexivity|].
  change (String c' d +:+ "/") with (String c' (d +:+ "/")) in *.
  exact IH.
Qed.

Lemma with_separator_back (d : string) : Std.back (with_separator d) = Some "/"%char.
Proof.
  unfold with_separator.
  destruct (bool_decide (Std.back d = Some "/"%char)) eqn:Hb.
  - now apply bool_decide_eq_true in Hb.
  - apply back_app_separator.
Qed.

(** A stream in a failed state takes nothing. *)
Lemma saveToFile_failed (str : list byte) (s : RawDataStreamPa) :
  Std.of_fail (file_handle_ s) = true → disk (saveToFile str s) = disk s.
Proof.
  intros Hfail. unfold saveToFile, Std.insert.
  destruct (Std.of_is_open (file_handle_ s)); [|reflexivity].
  now rewrite Hfail.
Qed.

Lemma run_failed (es : list Event) (s s' : RawDataStreamPa) :
  Std.of_fail (file_handle_ s) = true →
  run es s = Some s' →
  disk s' = disk s.
Proof.
  revert s. induction es as [|e es IH]; intros s Hfail Hrun; simpl in Hrun.
  - now injection Hrun as <-.
  - destruct (step e s) as [s1|] eqn:Hstep; [|discriminate]. simpl in Hrun.
    destruct (step_effect [] e s s1 Hstep) as ((_ & _ & _ & _ & Hh & _) & _).
    assert (Hfail1 : Std.of_fail (file_handle_ s1) = true) by (rewrite Hh; exact Hfail).
    rewrite (IH s1 Hfail1 Hrun).
    destruct e as [data size | topic msg]; simpl in Hstep.
    + apply ubloxCallback_Some in Hstep as [_ ->].
      rewrite saveToFile_failed; [now destruct (flag_publish_ s)|].
      now destruct (flag_publish_ s).
    + injection Hstep as <-. unfold deliver, msgCallback.
      destruct (bool_decide _); [|reflexivity]. now apply saveToFile_failed.
Qed.

(** X8. [initialize] is not to be called twice. On a node whose file is
    open, a second call that accepts the directory leaves the stream open
    but in a failed state: the files stay as they were, and from then on no
    callback writes a single byte, although [is_open] still holds. *)
Theorem second_initialize_stops_logging (os : OS) (s : RawDataStreamPa) (st_mode : Z)
    (es : list Event) :
  Std.of_is_open (file_handle_ s) = true →
  file_dir_ s ≠ "" →
  os_stat os (file_dir_ s) = Some st_mode →
  Z.land st_mode Std.S_IFDIR = Std.S_IFDIR →
  Forall in_bounds es →
  Std.of_is_open (file_handle_ (initialize os s)) = true
  ∧ Std.of_fail (file_handle_ (initialize os s)) = true
  ∧ disk (initialize os s) = disk s
  ∧ ∃ s', run es (initialize os s) = Some s'
      ∧ Std.of_is_open (file_handle_ s') = true
      ∧ disk s' = disk s.
Proof.
  intros Hopen Hdir Hstat Hbits Hall.
  assert (Hinit : file_handle_ (initialize os s)
                  = {| Std.of_is_open := true; Std.of_fail := true;
                       Std.of_path := Std.of_path (file_handle_ s) |}
                  ∧ disk (initialize os s) = disk s).
  { unfold initialize.
    destruct (initialize_channel_frame s) as (_ & _ & Hd & _ & Hh & _ & Hk).
    rewrite <- Hd in Hdir, Hstat.
    destruct (initialize_file_accepted os (initialize_channel s) st_mode Hdir Hstat Hbits)
      as (_ & _ & Hfile & _).
    unfold Std.open in Hfile. rewrite Hh, Hopen, Hk in Hfile.
    injection Hfile as -> ->. auto. }
  destruct Hinit as [Hh Hk].
  rewrite Hh, Hk. repeat split.
  destruct (run_in_bounds es (initialize os s) Hall) as [s' Hrun].
  exists s'. split; [exact Hrun|].
  destruct (run_effect es [] _ s' Hrun) as ((_ & _ & _ & _ & Hh' & _) & _).
  split; [now rewrite Hh', Hh|].
  rewrite (run_failed es (initialize os s) s') by (rewrite ?Hh; auto).
  exact Hk.
Qed.

Lemma second_initialize_stops_logging_witness :
  ∃ s', run events_example (initialize os_tmp_raw (initialize os_tmp_raw node_producer))
        = Some s'
    ∧ Std.of_is_open (file_handle_ s') = true
    ∧ disk s' = {[ "/tmp/raw/2024_03_07_0905.log" := [] ]}.
Proof.
  destruct (second_initialize_stops_logging os_tmp_raw
              (initialize os_tmp_raw node_producer) 16877%Z events_example)
    as (_ & _ & _ & s' & Hrun & Hopen & Hdisk).
  - vm_compute. reflexivity.
  - discriminate.
  - vm_compute. reflexivity.
  - reflexivity.
  - unfold events_example. repeat constructor; simpl; lia.
  - exists s'. split; [exact Hrun|]. split; [exact Hopen|].
    rewrite Hdisk. vm_compute. reflexivity.
Defined.

(** X9. A file that cannot be created goes unreported. When the directory
    is accepted but the stream fails to open the file, [initialize] logs no
    error: the one line the file side adds is the information that it is
    logging to the file. The stream stays closed, no file appears, and
    every chunk routed to [saveToFile] is dropped without a trace. *)
Theorem open_failure_is_silent (os : OS) (s : RawDataStreamPa) (st_mode : Z) :
  Std.of_is_open (file_handle_ s) = false →
  file_dir_ s ≠ "" →
  os_stat os (file_dir_ s) = Some st_mode →
  Z.land st_mode Std.S_IFDIR = Std.S_IFDIR →
  os_can_create os (with_separator (file_dir_ s) +:+ filename (os_localtime os)) = false →
  rosout (initialize os s)
  = rosout (initialize_channel s)
    ++ [(INFO, "Logging raw data to file " +:+ dq
               +:+ file_name_ (initialize os s) +:+ dq)]
  ∧ Std.of_is_open (file_handle_ (initialize os s)) = false
  ∧ disk (initialize os s) = disk s
  ∧ ∀ str, saveToFile str (initialize os s) = initialize os s.
Proof.
  intros Hclosed Hdir Hstat Hbits Hcreate. unfold initialize.
  destruct (initialize_channel_frame s) as (_ & _ & Hd & _ & Hh & _ & Hk).
  rewrite <- Hd in Hdir, Hstat, Hcreate.
  destruct (initialize_file_accepted os (initialize_channel s) st_mode Hdir Hstat Hbits)
    as (_ & Hname & Hfile & Hlog).
  unfold Std.open in Hfile. rewrite Hh, Hclosed, Hcreate, Hk in Hfile.
  injection Hfile as Hh' Hk'.
  rewrite Hlog, Hname, Hh', Hk'. repeat split.
  intros str. apply saveToFile_closed. now rewrite Hh'.
Qed.

Lemma open_failure_is_silent_witness :
  rosout (initialize os_read_only node_producer)
  = [ (INFO, "Publishing raw data stream.");
      (INFO, "Logging raw data to file " +:+ dq
             +:+ "/tmp/raw/2024_03_07_0905.log" +:+ dq) ]
  ∧ saveToFile [x01] (initialize os_read_only node_producer)
    = initialize os_read_only node_producer.
Proof.
  destruct (open_failure_is_silent os_read_only node_producer 16877%Z)
    as (Hlog & _ & _ & Hdrop).
  - reflexivity.
  - discriminate.
  - reflexivity.
  - reflexivity.
  - reflexivity.
  - split; [rewrite Hlog; reflexivity | apply Hdrop].
Defined.

(** X10. A directory that [::stat] cannot find, or whose mode lacks the
    [S_IFDIR] bits, costs exactly one error line, which names the directory
    and says which of the two it is; the stream, the files, the directory
    and the file name are left as they were, and the channel side is as if
    there were no directory. *)
Theorem initialize_reports_bad_directory (os : OS) (s : RawDataStreamPa) :
  file_dir_ s ≠ "" →
  (os_stat os (file_dir_ s) = None
   ∨ ∃ st_mode, os_stat os (file_dir_ s) = Some st_mode
                ∧ Z.land st_mode Std.S_IFDIR ≠ Std.S_IFDIR) →
  initialize os s
  = RCLCPP_LOG ERROR
      match os_stat os (file_dir_ s) with
      | None => "Can't log raw data to file. Directory " +:+ dq +:+ file_dir_ s +:+ dq
                +:+ " does not exist."
      | Some _ => "Can't log raw data to file. " +:+ dq +:+ file_dir_ s +:+ dq
                  +:+ " exists, but is not a directory."
      end
      (initialize_channel s)
  ∧ file_handle_ (initialize os s) = file_handle_ s
  ∧ disk (initialize os s) = disk s
  ∧ file_dir_ (initialize os s) = file_dir_ s
  ∧ file_name_ (initialize os s) = file_name_ s.
Proof.
  intros Hdir Hstat.
  destruct (initialize_channel_frame s) as (_ & _ & Hd & Hn & Hh & _ & Hk).
  assert (Hinit : initialize os s
    = RCLCPP_LOG ERROR
        match os_stat os (file_dir_ s) with
        | None => "Can't log raw data to file. Directory " +:+ dq +:+ file_dir_ s +:+ dq
                  +:+ " does not exist."
        | Some _ => "Can't log raw data to file. " +:+ dq +:+ file_dir_ s +:+ dq
                    +:+ " exists, but is not a directory."
        end
        (initialize_channel s)).
  { unfold initialize, initialize_file. rewrite Hd.
    apply str_empty_false in Hdir. rewrite Hdir. simpl.
    destruct Hstat as [-> | (st_mode & -> & Hbits)]; [reflexivity|].
    apply Z.eqb_neq in Hbits. now rewrite Hbits. }
  rewrite Hinit. simpl. auto.
Qed.

Lemma initialize_reports_bad_directory_witness :
  rosout (initialize os_tmp (set_file_dir_ "/nowhere" node_producer))
  = [ (INFO, "Publishing raw data stream.");
      (ERROR, "Can't log raw data to file. Directory " +:+ dq +:+ "/nowhere" +:+ dq
              +:+ " does not exist.") ]
  ∧ disk (initialize os_tmp (set_file_dir_ "/nowhere" node_producer)) = ∅.
Proof.
  destruct (initialize_reports_bad_directory os_tmp
              (set_file_dir_ "/nowhere" node_producer))
    as (Hinit & _ & Hdisk & _).
  - discriminate.
  - left. reflexivity.
  - split; [rewrite Hinit; reflexivity | exact Hdisk].
Defined.

(** X11. The channel side of [initialize] depends on the mode and the
    publish flag alone, never on the directory or on what the host answers:
    a relay subscribes to [raw_data_stream] and publishes nothing, a
    producer with the flag set publishes one empty message and does not
    subscribe, a producer without the flag does neither. With an empty
    directory the host is not consulted at all. *)
Theorem initialize_wiring (os : OS) (s : RawDataStreamPa) :
  raw_data_stream_sub_ (initialize os s)
  = (if is_ros_subscriber_ s then Some "raw_data_stream" else raw_data_stream_sub_ s)
  ∧ raw_pub_ (initialize os s)
    = (if is_ros_subscriber_ s then raw_pub_ s
       else if flag_publish_ s then raw_pub_ s ++ [str2uint8 []]
       else raw_pub_ s)
  ∧ (file_dir_ s = "" → ∀ os', initialize os' s = initialize os s).
Proof.
  unfold initialize.
  destruct (initialize_file_frame os (initialize_channel s)) as (_ & _ & -> & -> & _).
  split; [|split].
  - unfold initialize_channel.
    destruct (is_ros_subscriber_ s); [reflexivity|].
    destruct (flag_publish_ s); reflexivity.
  - unfold initialize_channel.
    destruct (is_ros_subscriber_ s); [reflexivity|].
    destruct (flag_publish_ s); reflexivity.
  - intros Hdir os'.
    destruct (initialize_channel_frame s) as (_ & _ & Hd & _).
    rewrite !initialize_file_disabled by (rewrite Hd; exact Hdir). reflexivity.
Qed.

Lemma initialize_wiring_witness :
  initialize os_block_device (set_file_dir_ "" node_producer)
  = initialize os_tmp (set_file_dir_ "" node_producer).
Proof.
  destruct (initialize_wiring os_tmp (set_file_dir_ "" node_producer)) as (_ & _ & Hhost).
  apply Hhost. reflexivity.
Defined.

(** X12. When the directory is accepted, [initialize] rewrites [file_dir_]
    itself: afterwards it ends with a separator, and [file_name_] is that
    directory followed by the time-stamped name. A directory that already
    ends with a separator is kept as it is, so no second separator is ever
    added. *)
Theorem initialize_normalises_directory (os : OS) (s : RawDataStreamPa) (st_mode : Z) :
  file_dir_ s ≠ "" →
  os_stat os (file_dir_ s) = Some st_mode →
  Z.land st_mode Std.S_IFDIR = Std.S_IFDIR →
  Std.back (file_dir_ (initialize os s)) = Some "/"%char
  ∧ file_name_ (initialize os s)
    = file_dir_ (initialize os s) +:+ filename (os_localtime os)
  ∧ with_separator (file_dir_ (initialize os s)) = file_dir_ (initialize os s)
  ∧ (Std.back (file_dir_ s) = Some "/"%char → file_dir_ (initialize os s) = file_dir_ s)
  ∧ (Std.back (file_dir_ s) ≠ Some "/"%char →
       file_dir_ (initialize os s) = file_dir_ s +:+ "/").
Proof.
  intros Hdir Hstat Hbits. unfold initialize.
  destruct (initialize_channel_frame s) as (_ & _ & Hd & _).
  rewrite <- Hd in Hdir, Hstat.
  destruct (initialize_file_accepted os (initialize_channel s) st_mode Hdir Hstat Hbits)
    as (-> & -> & _).
  rewrite Hd.
  split; [apply with_separator_back|]. split; [reflexivity|].
  split.
  - unfold with_separator at 1.
    now rewrite bool_decide_eq_true_2 by apply with_separator_back.
  - unfold with_separator. split; intros Hb.
    + now rewrite bool_decide_eq_true_2.
    + now rewrite bool_decide_eq_false_2.
Qed.

Lemma initialize_normalises_directory_witness :
  file_dir_ (initialize os_tmp_raw node_producer) = "/tmp/raw/"
  ∧ file_dir_ (initialize os_tmp_raw (initialize os_tmp_raw node_producer)) = "/tmp/raw/".
Proof.
  destruct (initialize_normalises_directory os_tmp_raw node_producer 16877%Z)
    as (_ & _ & _ & _ & Hadd);
    [discriminate | reflexivity | reflexivity |].
  destruct (initialize_normalises_directory os_tmp_raw
              (initialize os_tmp_raw node_producer) 16877%Z)
    as (_ & _ & _ & Hkeep & _);
    [discriminate | reflexivity | reflexivity |].
  split.
  - rewrite Hadd by discriminate. reflexivity.
  - rewrite Hkeep by reflexivity. reflexivity.
Defined.

End InitialisationEdges.

(** ** The shape of the published message *)

Section MessageShape.

(** X13. The message [str2uint8] builds has offset 0 and exactly one
    dimension, labelled [raw_data_stream], with stride 1 and, as its size,
    the length of the string reduced to 32 bits: the number of data bytes
    whenever that is below 2^32. Different strings give different
    messages. *)
Theorem str2uint8_layout (str : list byte) :
  Msg.layout (str2uint8 str)
  = {| Msg.dim := [ {| Msg.label := "raw_data_stream";
                       Msg.size := (Z.of_nat (length str) mod 2 ^ 32)%Z;
                       Msg.stride := 1 |} ];
       Msg.data_offset := 0 |}
  ∧ ((Z.of_nat (length str) < 2 ^ 32)%Z →
       Msg.size <$> Msg.dim (Msg.layout (str2uint8 str))
       = [Z.of_nat (length (Msg.data (str2uint8 str)))])
  ∧ (∀ str', str2uint8 str = str2uint8 str' → str = str').
Proof.
  rewrite str2uint8_eq. split; [reflexivity|]. split.
  - intros Hlt. cbn [Msg.layout Msg.dim Msg.data fmap list_fmap Msg.size].
    unfold Msg.to_uint32. rewrite Z.mod_small by lia. reflexivity.
  - intros str' Heq. rewrite str2uint8_eq in Heq. now injection Heq.
Qed.

Lemma str2uint8_layout_witness :
  Msg.size <$> Msg.dim (Msg.layout (str2uint8 [x01; x02; x03])) = [3%Z].
Proof.
  destruct (str2uint8_layout [x01; x02; x03]) as (_ & Hsize & _).
  rewrite Hsize; [reflexivity|]. simpl. lia.
Defined.

End MessageShape.
